(** * VoiceKit assistant: the event dispatcher of [src/main.py]

    A shallow embedding of [MyAssistant] (its event handler
    [_process_event], the button callback [_on_button_pressed], the loop
    [_run_task] and the thread started by [start]) together with the
    command handlers [power_off_pi], [reboot_pi], [say_ip], [volume_down]
    and [volume_up].

    Python values are modelled as follows.
    - [str] is [string]; a character is a code point below 256, which is
      enough for every literal of the program and keeps [lower], [split]
      and [isdigit] exact on that range.
    - [int] is [Z].
    - the dictionary [event.args] is a [gmap string pyval], or [None].
    - an exception is a value of [exn]; a computation that may raise
      returns a [result].
    - the handlers run in the monad [M]: they read and update a [State]
      and may raise.  What was done before an exception stays done. *)

From Stdlib Require Import ZArith Ascii String DecimalString.
From stdpp Require Import base option list gmap strings.

Local Open Scope string_scope.
Local Open Scope Z_scope.

(** ** Exceptions and results *)

Inductive exn : Type :=
| SystemExit (code : Z)
| KeyError (key : string)
| IndexError
| ValueError
| AttributeError
| TypeError.

Inductive result (A : Type) : Type :=
| Ok (a : A)
| Raise (e : exn).
Arguments Ok {A} a.
Arguments Raise {A} e.

Definition result_bind {A B : Type} (r : result A) (k : A -> result B)
  : result B :=
  match r with
  | Ok a => k a
  | Raise e => Raise e
  end.

(** ** Python's [str] methods used by the program *)

Module Py.

Definition code (c : ascii) : Z := Z.of_N (N_of_ascii c).

Definition chr (n : Z) : ascii := ascii_of_N (Z.to_N n).

(** [c.lower()] for one character: A-Z and the upper-case letters of the
    Latin-1 block (all of 192..222 but the multiplication sign 215) move
    up by 32. *)
Definition lower_char (c : ascii) : ascii :=
  let n := code c in
  if ((65 <=? n) && (n <=? 90))
     || ((192 <=? n) && (n <=? 222) && negb (n =? 215))
  then chr (n + 32) else c.

(** [s.lower()] *)
Fixpoint lower (s : string) : string :=
  match s with
  | EmptyString => EmptyString
  | String c s' => String (lower_char c) (lower s')
  end.

(** The characters [str.split()] separates on: tab, line feed, vertical
    tab, form feed, carriage return, the four separators 28..31, space,
    next line (133) and the no-break space (160). *)
Definition isspace_char (c : ascii) : bool :=
  let n := code c in
  ((9 <=? n) && (n <=? 13)) || ((28 <=? n) && (n <=? 32))
  || (n =? 133) || (n =? 160).

(** The characters [str.isdigit()] accepts: 0-9 and the superscripts
    two (178), three (179) and one (185). *)
Definition isdigit_char (c : ascii) : bool :=
  let n := code c in
  ((48 <=? n) && (n <=? 57)) || (n =? 178) || (n =? 179) || (n =? 185).

Fixpoint all_chars (p : ascii -> bool) (s : string) : bool :=
  match s with
  | EmptyString => true
  | String c s' => p c && all_chars p s'
  end.

(** [s.isdigit()]: at least one character, and all of them digits. *)
Definition isdigit (s : string) : bool :=
  match s with
  | EmptyString => false
  | String _ _ => all_chars isdigit_char s
  end.

(** [s.split()] with no separator: the maximal runs of characters that
    are not white space, in order.  [cur] is the run being read. *)
Fixpoint split_go (cur : string) (s : string) : list string :=
  match s with
  | EmptyString =>
      match cur with
      | EmptyString => []
      | String _ _ => [cur]
      end
  | String c s' =>
      if isspace_char c then
        match cur with
        | EmptyString => split_go EmptyString s'
        | String _ _ => cur :: split_go EmptyString s'
        end
      else split_go (cur +:+ String c EmptyString) s'
  end.

Definition split (s : string) : list string := split_go EmptyString s.

(** The value of a decimal digit 0-9. *)
Definition digit_value (c : ascii) : option Z :=
  let n := code c in
  if (48 <=? n) && (n <=? 57) then Some (n - 48) else None.

Fixpoint int_go (acc : Z) (s : string) : result Z :=
  match s with
  | EmptyString => Ok acc
  | String c s' =>
      match digit_value c with
      | Some d => int_go (10 * acc + d) s'
      | None => Raise ValueError
      end
  end.

(** [int(s)] on a string of characters that pass [isdigit], the only
    strings the program converts: the decimal value when every character
    is one of 0-9, a [ValueError] on a superscript digit. *)
Definition int (s : string) : result Z :=
  match s with
  | EmptyString => Raise ValueError
  | String _ _ => int_go 0 s
  end.

(** [str(n)] for an [int]. *)
Definition str (n : Z) : string := NilZero.string_of_int (Z.to_int n).

Fixpoint join (sep : string) (l : list string) : string :=
  match l with
  | [] => EmptyString
  | [x] => x
  | x :: rest => x +:+ sep +:+ join sep rest
  end.

(** [str(l)] for a list of [int], as [print(l)] shows it. *)
Definition str_list (l : list Z) : string :=
  "[" +:+ join ", " (map str l) +:+ "]".

(** [s.find(sub)]: the index of the leftmost occurrence. *)
Definition find (sub s : string) : option nat := String.index 0 sub s.

(** [sub in s] *)
Definition contains (sub s : string) : bool :=
  match find sub s with
  | Some _ => true
  | None => false
  end.

(** The first [n] characters, and what follows them. *)
Definition take (n : nat) (s : string) : string := String.substring 0 n s.

Definition drop (n : nat) (s : string) : string :=
  String.substring n (String.length s - n) s.

(** [s.replace(old, new, count)] for a non-empty [old], as at both call
    sites; [count = None] is the call without a count.  Occurrences are
    replaced from the left, each search resuming after the previous
    occurrence.  [fuel] bounds the number of replacements: each one
    consumes at least one character of [s]. *)
Fixpoint replace_go (fuel : nat) (old new : string) (count : option nat)
    (s : string) : string :=
  match fuel with
  | O => s
  | S fuel' =>
      match count with
      | Some O => s
      | _ =>
          match find old s with
          | None => s
          | Some i =>
              take i s +:+ new +:+
              replace_go fuel' old new (Nat.pred <$> count)
                (drop (i + String.length old) s)
          end
      end
  end.

Definition replace (old new : string) (count : option nat) (s : string)
  : string :=
  replace_go (S (String.length s)) old new count s.

(** The truth value of a [str]: false for the empty string only. *)
Definition truthy (s : string) : bool :=
  match s with
  | EmptyString => false
  | String _ _ => true
  end.

End Py.

(** ** Events

    [EventType] of [google.assistant.library.event]: the kinds the program
    tests for, and the other kinds of the library. *)

Inductive EventType : Type :=
| ON_START_FINISHED
| ON_CONVERSATION_TURN_STARTED
| ON_CONVERSATION_TURN_TIMEOUT
| ON_END_OF_UTTERANCE
| ON_RECOGNIZING_SPEECH_FINISHED
| ON_RESPONDING_STARTED
| ON_RESPONDING_FINISHED
| ON_NO_RESPONSE
| ON_CONVERSATION_TURN_FINISHED
| ON_ALERT_STARTED
| ON_ALERT_FINISHED
| ON_ASSISTANT_ERROR
| ON_MUTED_CHANGED.

#[global] Instance EventType_eq_dec : EqDecision EventType.
Proof. solve_decision. Defined.

(** The values found in [event.args]: the recognized text is a [str], the
    fatal flag a [bool]. *)
Inductive pyval : Type :=
| VStr (s : string)
| VBool (b : bool).

#[global] Instance pyval_eq_dec : EqDecision pyval.
Proof. solve_decision. Defined.

Record Event : Type := mkEvent {
  type : EventType;
  args : option (gmap string pyval)
}.

(** The truth value of [event.args]: [None] and the empty dictionary are
    false. *)
Definition args_truthy (a : option (gmap string pyval)) : bool :=
  match a with
  | None => false
  | Some m => negb (Nat.eqb (size m) 0)
  end.

(** [event.args[key]] *)
Definition args_getitem (a : option (gmap string pyval)) (key : string)
  : result pyval :=
  match a with
  | None => Raise TypeError
  | Some m =>
      match m !! key with
      | Some v => Ok v
      | None => Raise (KeyError key)
      end
  end.

(** The truth value of a value of [event.args]. *)
Definition pyval_truthy (v : pyval) : bool :=
  match v with
  | VStr s => Py.truthy s
  | VBool b => b
  end.

(** [str(v)], as [print] shows a value. *)
Definition pyval_str (v : pyval) : string :=
  match v with
  | VStr s => s
  | VBool true => "True"
  | VBool false => "False"
  end.

(** [v.lower()]: only a [str] has the method. *)
Definition pyval_lower (v : pyval) : result string :=
  match v with
  | VStr s => Ok (Py.lower s)
  | VBool _ => Raise AttributeError
  end.

(** ** State and effects *)

(** What the program does to its collaborators, in the order it does it. *)
Inductive effect : Type :=
| Status (status : string)        (* status_ui.status(status) *)
| OnPress                         (* get_button().on_press(self._on_button_pressed) *)
| Print (line : string)           (* print(...) *)
| StartConversation               (* self._assistant.start_conversation() *)
| StopConversation                (* self._assistant.stop_conversation() *)
| Say (words : string)            (* aiy.audio.say(words) *)
| SetTtsVolume (volume : Z)       (* aiy.audio.set_tts_volume(volume) *)
| SubprocessCall (cmd : string)   (* subprocess.call(cmd, shell=True) *)
| CheckOutput (cmd : string).     (* subprocess.check_output(cmd, shell=True) *)

#[global] Instance effect_eq_dec : EqDecision effect.
Proof. solve_decision. Defined.

(** The [Assistant] of the library is opaque to the program: requests to
    it are recorded as effects. *)
Inductive Assistant : Type := AssistantHandle.

(** The two attributes of [MyAssistant] the handlers use, and the state of
    the collaborators: the status shown by the status UI, the volume kept
    by [aiy.audio], whether the button has a callback, whether standard
    output is a terminal, and what the shell prints for the IP lookup. *)
Record State : Type := mkState {
  _can_start_conversation : bool;
  _assistant : option Assistant;
  ui_status : string;
  tts_volume : Z;
  button_callback : bool;
  stdout_isatty : bool;
  hostname_output : string;
  trace : list effect
}.

Definition M (A : Type) : Type := State -> result A * State.

#[global] Instance M_ret : MRet M := fun A a s => (Ok a, s).

#[global] Instance M_bind : MBind M := fun A B k m s =>
  match m s with
  | (Ok a, s') => k a s'
  | (Raise e, s') => (Raise e, s')
  end.

Definition raise {A : Type} (e : exn) : M A := fun s => (Raise e, s).

Definition lift {A : Type} (r : result A) : M A := fun s => (r, s).

Definition emit (e : effect) (s : State) : State :=
  mkState (_can_start_conversation s) (_assistant s) (ui_status s)
    (tts_volume s) (button_callback s) (stdout_isatty s)
    (hostname_output s) (trace s ++ [e]).

Definition do (e : effect) : M unit := fun s => (Ok tt, emit e s).

(** [self._can_start_conversation = b] *)
Definition set_can_start_conversation (b : bool) : M unit := fun s =>
  (Ok tt,
   mkState b (_assistant s) (ui_status s) (tts_volume s)
     (button_callback s) (stdout_isatty s) (hostname_output s) (trace s)).

(** [self._assistant = assistant] *)
Definition set_assistant (a : Assistant) : M unit := fun s =>
  (Ok tt,
   mkState (_can_start_conversation s) (Some a) (ui_status s)
     (tts_volume s) (button_callback s) (stdout_isatty s)
     (hostname_output s) (trace s)).

(** [status_ui.status(status)] with one of the names the status UI
    knows. *)
Definition status_ui_status (status : string) : M unit := fun s =>
  (Ok tt,
   emit (Status status)
     (mkState (_can_start_conversation s) (_assistant s) status
        (tts_volume s) (button_callback s) (stdout_isatty s)
        (hostname_output s) (trace s))).

(** [aiy.voicehat.get_button().on_press(self._on_button_pressed)] *)
Definition button_on_press : M unit := fun s =>
  (Ok tt,
   emit OnPress
     (mkState (_can_start_conversation s) (_assistant s) (ui_status s)
        (tts_volume s) true (stdout_isatty s) (hostname_output s)
        (trace s))).

(** [aiy.audio.get_tts_volume()] *)
Definition get_tts_volume : M Z := fun s => (Ok (tts_volume s), s).

(** [aiy.audio.set_tts_volume(volume)]: the value is stored as given. *)
Definition set_tts_volume (volume : Z) : M unit := fun s =>
  (Ok tt,
   emit (SetTtsVolume volume)
     (mkState (_can_start_conversation s) (_assistant s) (ui_status s)
        volume (button_callback s) (stdout_isatty s) (hostname_output s)
        (trace s))).

Definition say (words : string) : M unit := do (Say words).

Definition print (line : string) : M unit := do (Print line).

(** [sys.stdout.isatty()] *)
Definition sys_stdout_isatty : M bool := fun s => (Ok (stdout_isatty s), s).

(** [sys.exit(code)] raises [SystemExit]. *)
Definition sys_exit {A : Type} (code : Z) : M A := raise (SystemExit code).

(** [self._assistant.stop_conversation()]: an attribute error while
    [self._assistant] is still [None]. *)
Definition stop_conversation : M unit := fun s =>
  match _assistant s with
  | Some _ => (Ok tt, emit StopConversation s)
  | None => (Raise AttributeError, s)
  end.

(** [self._assistant.start_conversation()] *)
Definition start_conversation : M unit := fun s =>
  match _assistant s with
  | Some _ => (Ok tt, emit StartConversation s)
  | None => (Raise AttributeError, s)
  end.

(** ** The command handlers *)

Definition power_off_pi : M unit :=
  say "Good bye!" ;;
  do (SubprocessCall "sudo shutdown now").

Definition reboot_pi : M unit :=
  say "See you in a bit!" ;;
  do (SubprocessCall "sudo reboot").

(** The shell command of [say_ip]; its decoded output is
    [hostname_output] of the state. *)
Definition ip_command : string := "hostname -I | cut -d' ' -f1".

Definition say_ip : M unit :=
  do (CheckOutput ip_command) ;;
  ip_address ← (fun s => (Ok (hostname_output s), s)) ;
  say ("My IP address is " +:+ ip_address).

Definition volume_down : M unit :=
  volume_actual ← get_tts_volume ;
  if volume_actual <? 2 then
    set_tts_volume 0 ;;
    say "Ok, done"
  else
    set_tts_volume (volume_actual - 2) ;;
    say "Ok, done".

Definition volume_up : M unit :=
  volume_actual ← get_tts_volume ;
  if volume_actual >? 98 then
    set_tts_volume 100 ;;
    say "Ok, done"
  else
    set_tts_volume (volume_actual + 2) ;;
    say "Ok, done".

(** [[int(s) for s in tokens if s.isdigit()]]: the tokens are visited in
    order, and a conversion that raises ends the whole comprehension. *)
Fixpoint digit_tokens (tokens : list string) : result (list Z) :=
  match tokens with
  | [] => Ok []
  | s :: rest =>
      if Py.isdigit s then
        result_bind (Py.int s) (fun v =>
        result_bind (digit_tokens rest) (fun vs => Ok (v :: vs)))
      else digit_tokens rest
  end.

(** [volume[0]] *)
Definition getitem0 (volume : list Z) : result Z :=
  match volume with
  | v :: _ => Ok v
  | [] => Raise IndexError
  end.

(** The hint printed once the library has started; it holds two double
    quotes (character 34). *)
Definition dquote : string := String (Py.chr 34) EmptyString.

Definition start_hint : string :=
  "Say " +:+ dquote +:+ "OK, Google" +:+ dquote +:+
  " or press the button, then speak. " +:+ "Press Ctrl+C to quit...".

(** ** The dispatcher *)

(** The branch of [_process_event] taken for recognized speech; [text] is
    the lowered text.  A guard [lit and cond] with a string literal [lit]
    is the truth value of [lit] and then [cond]. *)
Definition dispatch_command (text : string) : M unit :=
  if String.eqb text "power off" then
    stop_conversation ;;
    power_off_pi
  else if String.eqb text "reboot" then
    stop_conversation ;;
    reboot_pi
  else if Py.truthy "what is" && Py.contains "ip address" text then
    stop_conversation ;;
    say_ip
  else if Py.contains "repeat" text then
    stop_conversation ;;
    let to_repeat := Py.replace "repeat" EmptyString (Some 1%nat) text in
    say to_repeat
  else if Py.truthy "set" && Py.contains "secondary volume to" text then
    stop_conversation ;;
    let text := Py.replace "%" EmptyString None text in
    volume ← lift (digit_tokens (Py.split text)) ;
    print (Py.str_list volume) ;;
    v ← lift (getitem0 volume) ;
    say ("Ok, I've set the secondary volume to" +:+ Py.str v +:+ "%") ;;
    print (Py.str_list volume) ;;
    v ← lift (getitem0 volume) ;
    set_tts_volume v
  else if Py.contains "secondary volume down" text then
    stop_conversation ;;
    volume_down
  else if Py.contains "secondary volume up" text then
    stop_conversation ;;
    volume_down
  else mret tt.

Definition _process_event (event : Event) : M unit :=
  if bool_decide (type event = ON_START_FINISHED) then
    status_ui_status "ready" ;;
    set_can_start_conversation true ;;
    button_on_press ;;
    tty ← sys_stdout_isatty ;
    if (tty : bool) then print start_hint else mret tt
  else if bool_decide (type event = ON_CONVERSATION_TURN_STARTED) then
    set_can_start_conversation false ;;
    status_ui_status "listening" ;;
    button_on_press
  else if bool_decide (type event = ON_RECOGNIZING_SPEECH_FINISHED)
          && args_truthy (args event) then
    said ← lift (args_getitem (args event) "text") ;
    print ("You said: " +:+ pyval_str said) ;;
    said ← lift (args_getitem (args event) "text") ;
    text ← lift (pyval_lower said) ;
    dispatch_command text
  else if bool_decide (type event = ON_END_OF_UTTERANCE) then
    status_ui_status "thinking"
  else if bool_decide (type event = ON_CONVERSATION_TURN_FINISHED) then
    status_ui_status "ready" ;;
    set_can_start_conversation true
  else if bool_decide (type event = ON_ASSISTANT_ERROR)
          && args_truthy (args event) then
    is_fatal ← lift (args_getitem (args event) "is_fatal") ;
    if pyval_truthy is_fatal then sys_exit 1 else mret tt
  else mret tt.

Definition _on_button_pressed : M unit :=
  can_start ← (fun s => (Ok (_can_start_conversation s), s)) ;
  if (can_start : bool) then start_conversation else stop_conversation.

(** ** The event loop, the thread and the process *)

(** [for event in assistant.start(): self._process_event(event)] over the
    events the library yields; an exception leaves the loop. *)
Fixpoint for_each_event (events : list Event) : M unit :=
  match events with
  | [] => mret tt
  | event :: rest => _process_event event ;; for_each_event rest
  end.

(** [_run_task]: the library is opened with the credentials, stored in
    [self._assistant], and its events are handled one by one. *)
Definition _run_task (events : list Event) : M unit :=
  set_assistant AssistantHandle ;;
  for_each_event events.

(** [MyAssistant.__init__], in a given state of the collaborators. *)
Definition __init__ (world : State) : State :=
  mkState false None (ui_status world) (tts_volume world)
    (button_callback world) (stdout_isatty world) (hostname_output world)
    (trace world).

(** The collaborators when the module has been loaded: the volume set to
    2 by [aiy.audio.set_tts_volume(2)], no callback on the button, nothing
    done yet. *)
Definition loaded (status : string) (isatty : bool) (hostname : string)
  : State :=
  mkState false None status 2 false isatty hostname [].

(** How a thread of [threading.Thread] ends: its target returns, or an
    exception escapes it.  A [SystemExit] that escapes the target of a
    thread is dropped without a message and ends that thread alone; any
    other exception is reported on standard error and ends the thread as
    well. *)
Inductive thread_end : Type :=
| Returned
| DroppedSystemExit (code : Z)
| Reported (e : exn).

Definition Thread_run (target : M unit) (s : State) : thread_end * State :=
  match target s with
  | (Ok _, s') => (Returned, s')
  | (Raise (SystemExit code), s') => (DroppedSystemExit code, s')
  | (Raise e, s') => (Reported e, s')
  end.

(** [MyAssistant.start]: [self._task.start()], with
    [self._task = threading.Thread(target=self._run_task)]. *)
Definition start (events : list Event) (s : State) : thread_end * State :=
  Thread_run (_run_task events) s.

(** The exit status of the interpreter is decided by its main thread:
    0 when the main module runs to its end, the code of a [SystemExit]
    raised there, 1 for any other exception. *)
Definition exit_status (main_thread : result unit) : Z :=
  match main_thread with
  | Ok _ => 0
  | Raise (SystemExit code) => code
  | Raise _ => 1
  end.

(** [main()]: [MyAssistant().start()] returns at once on the main thread,
    which has nothing left to do; the interpreter then waits for the
    thread of [_run_task].  The result is the exit status, how the thread
    ended and the final state. *)
Definition main (events : list Event) (world : State)
  : Z * thread_end * State :=
  let '(task_end, s) := start events (__init__ world) in
  (exit_status (Ok tt), task_end, s).

(** ** The button and the dispatcher side by side *)

(** One step of the whole system: an event is delivered to the
    dispatcher, or the button is pressed. *)
Inductive action : Type :=
| Deliver (event : Event)
| Press.

(** A press runs the callback when one is registered; the callback runs
    on the button's own thread, so an exception in it does not reach the
    dispatcher. *)
Definition button_press (s : State) : State :=
  if button_callback s then snd (_on_button_pressed s) else s.

(** The dispatcher and the button interleaved handler by handler; [task]
    is the state of the loop, which takes no more events once an
    exception has left it. *)
Fixpoint system (acts : list action) (task : result unit) (s : State)
  : result unit * State :=
  match acts with
  | [] => (task, s)
  | Deliver event :: rest =>
      match task with
      | Ok _ =>
          let '(task', s') := _process_event event s in
          system rest task' s'
      | Raise _ => system rest task s
      end
  | Press :: rest => system rest task (button_press s)
  end.

(** The kinds of the events the dispatcher has handled in [system]. *)
Fixpoint handled (acts : list action) (task : result unit) (s : State)
  : list EventType :=
  match acts with
  | [] => []
  | Deliver event :: rest =>
      match task with
      | Ok _ =>
          let '(task', s') := _process_event event s in
          type event :: handled rest task' s'
      | Raise _ => handled rest task s
      end
  | Press :: rest => handled rest task (button_press s)
  end.

(** ** The table of the specification *)

(** What the dispatcher shows: the status and the readiness flag. *)
Definition shown (s : State) : string * bool :=
  (ui_status s, _can_start_conversation s).

(** The status and readiness columns of the table of section 4.2 of the
    specification, written from its rows: the four kinds that change
    something, and every other kind, which changes nothing. *)
Definition table (kind : EventType) (st : string * bool) : string * bool :=
  match kind with
  | ON_START_FINISHED => ("ready", true)
  | ON_CONVERSATION_TURN_STARTED => ("listening", false)
  | ON_END_OF_UTTERANCE => ("thinking", snd st)
  | ON_CONVERSATION_TURN_FINISHED => ("ready", true)
  | _ => st
  end.

(** The state [s] after the effects [es], nothing else changed. *)
Definition extend (s : State) (es : list effect) : State :=
  mkState (_can_start_conversation s) (_assistant s) (ui_status s)
    (tts_volume s) (button_callback s) (stdout_isatty s)
    (hostname_output s) (trace s ++ es).

(** The state [s] with the volume [v]. *)
Definition with_volume (s : State) (v : Z) : State :=
  mkState (_can_start_conversation s) (_assistant s) (ui_status s)
    v (button_callback s) (stdout_isatty s) (hostname_output s) (trace s).

(** The number of times an effect occurs in a trace. *)
Definition occurrences (e : effect) (t : list effect) : nat :=
  length (filter (fun x => x = e) t).

(** A computation that leaves an observation [f] of the state alone,
    whatever it returns or raises. *)
Definition keeps {A X : Type} (f : State -> X) (m : M A) : Prop :=
  forall s, f (m s).2 = f s.

(** The session handle, and how often a conversation was started. *)
Definition session (s : State) : option Assistant * nat :=
  (_assistant s, occurrences StartConversation (trace s)).

(** The kinds of the events delivered in a run. *)
Fixpoint delivered (acts : list action) : list EventType :=
  match acts with
  | [] => []
  | Deliver event :: rest => type event :: delivered rest
  | Press :: rest => delivered rest
  end.

(** The state in which the loop of [_run_task] starts, and the state
    after a run of events and button presses from there. *)
Definition entered (world : State) : State :=
  (set_assistant AssistantHandle (__init__ world)).2.

Definition after (world : State) (acts : list action) : State :=
  (system acts (Ok tt) (entered world)).2.

(** The tokens the set-volume branch looks at: the text without its
    percent signs, split on white space. *)
Definition volume_tokens (text : string) : list string :=
  Py.split (Py.replace "%" EmptyString None text).

(** The events of a run without its button presses. *)
Fixpoint deliveries (acts : list action) : list action :=
  match acts with
  | [] => []
  | Deliver event :: rest => Deliver event :: deliveries rest
  | Press :: rest => deliveries rest
  end.

(** The kinds whose handler registers the button callback. *)
Definition registers (kind : EventType) : bool :=
  bool_decide (kind = ON_START_FINISHED)
  || bool_decide (kind = ON_CONVERSATION_TURN_STARTED).

(** What no handler writes: the session handle, whether standard output
    is a terminal, and the output of the IP lookup. *)
Definition surroundings (s : State) : option Assistant * bool * string :=
  (_assistant s, stdout_isatty s, hostname_output s).

(** The state left by the START_FINISHED and CONVERSATION_TURN_STARTED
    handlers: the given status and flag, the callback registered. *)
Definition registered (s : State) (status : string) (ready : bool)
    (es : list effect) : State :=
  mkState ready (_assistant s) status (tts_volume s) true (stdout_isatty s)
    (hostname_output s) (trace s ++ es).


(** A computation that only adds to the trace, whatever it returns or
    raises. *)
Definition grows {A : Type} (m : M A) : Prop :=
  forall s, trace s `prefix_of` trace (m s).2.

(** Events and states used in the examples. *)
Definition speech (text : string) : Event :=
  mkEvent ON_RECOGNIZING_SPEECH_FINISHED (Some {[ "text" := VStr text ]}).

Definition assistant_error (is_fatal : bool) : Event :=
  mkEvent ON_ASSISTANT_ERROR (Some {[ "is_fatal" := VBool is_fatal ]}).

Definition running : State :=
  mkState false (Some AssistantHandle) "listening" 2 true false
    "192.168.1.20" [].

Example lower_ex : Py.lower "Power OFF" = "power off".
Proof. reflexivity. Qed.

Example split_ex :
  Py.split "  set secondary   volume to 42 " =
  ["set"; "secondary"; "volume"; "to"; "42"].
Proof. reflexivity. Qed.

Example int_ex : Py.int "007" = Ok 7.
Proof. reflexivity. Qed.

Example str_ex : Py.str 42 = "42" /\ Py.str 0 = "0" /\ Py.str (-3) = "-3".
Proof. repeat split; reflexivity. Qed.

Example str_list_ex : Py.str_list [42; 7] = "[42, 7]" /\ Py.str_list [] = "[]".
Proof. split; reflexivity. Qed.

Example replace_first_ex :
  Py.replace "repeat" EmptyString (Some 1%nat) "please repeat that repeat"
  = "please  that repeat".
Proof. reflexivity. Qed.

Example replace_all_ex :
  Py.replace "%" EmptyString None "4%2 % 7%%" = "42  7".
Proof. reflexivity. Qed.

Example contains_ex :
  Py.contains "ip address" "what is my ip address" = true /\
  Py.contains "ip address" "power off" = false.
Proof. split; reflexivity. Qed.

Example power_off_ex :
  _process_event (speech "Power off") running =
  (Ok tt,
   mkState false (Some AssistantHandle) "listening" 2 true false
     "192.168.1.20"
     [Print "You said: Power off"; StopConversation; Say "Good bye!";
      SubprocessCall "sudo shutdown now"]).
Proof. vm_compute. reflexivity. Qed.

(** ** Recognized speech reaches the command chain *)

Lemma args_truthy_lookup (m : gmap string pyval) (key : string) (v : pyval) :
  m !! key = Some v -> args_truthy (Some m) = true.
Proof.
  intros Hk. unfold args_truthy.
  destruct (Nat.eqb_spec (size m) 0) as [Hz | Hz]; [| reflexivity].
  apply map_size_empty_iff in Hz. subst m.
  rewrite lookup_empty in Hk. discriminate.
Qed.

Lemma speech_reaches_commands (m : gmap string pyval) (raw : string)
    (s : State) :
  m !! "text" = Some (VStr raw) ->
  _process_event (mkEvent ON_RECOGNIZING_SPEECH_FINISHED (Some m)) s =
  dispatch_command (Py.lower raw) (emit (Print ("You said: " +:+ raw)) s).
Proof.
  intros Hk. unfold _process_event. cbn [type args].
  rewrite (args_truthy_lookup _ _ _ Hk).
  cbn -[dispatch_command String.append].
  unfold mbind, M_bind, lift, args_getitem. rewrite Hk.
  cbn -[dispatch_command String.append]. reflexivity.
Qed.

(** Running a handler on a state given by its fields: the monad and the
    primitive operations are unfolded, and the trace is put back in the
    form [t ++ [e1; ...; en]]. *)
Ltac run_handlers :=
  cbv [mbind M_bind mret M_ret lift raise do say print emit extend
       with_volume stop_conversation start_conversation set_tts_volume
       get_tts_volume status_ui_status set_can_start_conversation
       button_on_press sys_stdout_isatty sys_exit power_off_pi reboot_pi
       say_ip volume_down volume_up result_bind getitem0
       _can_start_conversation _assistant ui_status tts_volume
       button_callback stdout_isatty hostname_output trace];
  rewrite <- ?app_assoc; cbn [app]; try reflexivity.

(** ** Power off *)

(** C3: when the recognized text lowers to "power off", the dispatcher
    prints the text, requests [stop_conversation] once, then runs the
    power-off action once (the farewell and the shutdown command), and
    does nothing else: no IP report, no repeat, no volume change. *)
Theorem power_off_stops_then_shuts_down (m : gmap string pyval)
    (raw : string) (a : Assistant) (s : State) :
  m !! "text" = Some (VStr raw) ->
  Py.lower raw = "power off" ->
  _assistant s = Some a ->
  _process_event (mkEvent ON_RECOGNIZING_SPEECH_FINISHED (Some m)) s =
  (Ok tt,
   extend s [Print ("You said: " +:+ raw); StopConversation;
             Say "Good bye!"; SubprocessCall "sudo shutdown now"])
  /\ power_off_pi (extend s [Print ("You said: " +:+ raw); StopConversation])
     = (Ok tt,
        extend s [Print ("You said: " +:+ raw); StopConversation;
                  Say "Good bye!"; SubprocessCall "sudo shutdown now"])
  /\ occurrences StopConversation
       [Print ("You said: " +:+ raw); StopConversation;
        Say "Good bye!"; SubprocessCall "sudo shutdown now"] = 1%nat.
Proof.
  intros Hk Hlow Ha.
  rewrite (speech_reaches_commands _ _ _ Hk), Hlow.
  unfold dispatch_command. cbn [String.eqb Ascii.eqb Bool.eqb].
  destruct s; cbn in Ha; subst.
  split; [| split]; [run_handlers .. | reflexivity].
Qed.

Lemma power_off_witness :
  ({[ "text" := VStr "Power Off" ]} : gmap string pyval) !! "text"
    = Some (VStr "Power Off") /\
  Py.lower "Power Off" = "power off" /\
  _assistant running = Some AssistantHandle /\
  _process_event (speech "Power Off") running =
  (Ok tt,
   extend running [Print "You said: Power Off"; StopConversation;
                   Say "Good bye!"; SubprocessCall "sudo shutdown now"]).
Proof.
  split; [reflexivity |]. split; [reflexivity |]. split; [reflexivity |].
  apply (power_off_stops_then_shuts_down
           {[ "text" := VStr "Power Off" ]} "Power Off" AssistantHandle
           running); reflexivity.
Defined.

(** ** Status and readiness *)

Section Keeps.
Context {X : Type} (f : State -> X).

Lemma keeps_ret {A : Type} (a : A) : keeps f (mret a).
Proof. intros s. reflexivity. Qed.

Lemma keeps_bind {A B : Type} (m : M A) (k : A -> M B) :
  keeps f m -> (forall a, keeps f (k a)) -> keeps f (m ≫= k).
Proof.
  intros Hm Hk s. unfold mbind, M_bind.
  specialize (Hm s). destruct (m s) as [[a | e] s1]; cbn in *.
  - rewrite Hk. exact Hm.
  - exact Hm.
Qed.

Lemma keeps_lift {A : Type} (r : result A) : keeps f (lift r).
Proof. intros s. reflexivity. Qed.

Lemma keeps_raise {A : Type} (e : exn) : keeps f (@raise A e).
Proof. intros s. reflexivity. Qed.

Lemma keeps_read {A : Type} (g : State -> A) :
  keeps f (fun s => (Ok (g s), s)).
Proof. intros s. reflexivity. Qed.

Lemma keeps_get_tts_volume : keeps f get_tts_volume.
Proof. intros s. reflexivity. Qed.

Lemma keeps_isatty : keeps f sys_stdout_isatty.
Proof. intros s. reflexivity. Qed.
End Keeps.

Lemma shown_do (e : effect) : keeps shown (do e).
Proof. intros s. reflexivity. Qed.

Lemma shown_stop_conversation : keeps shown stop_conversation.
Proof.
  intros s. unfold stop_conversation. destruct (_assistant s); reflexivity.
Qed.

Lemma shown_start_conversation : keeps shown start_conversation.
Proof.
  intros s. unfold start_conversation. destruct (_assistant s); reflexivity.
Qed.

Lemma shown_set_tts_volume (v : Z) : keeps shown (set_tts_volume v).
Proof. intros s. reflexivity. Qed.

Lemma occurrences_snoc (e x : effect) (t : list effect) :
  x <> e -> occurrences e (t ++ [x]) = occurrences e t.
Proof.
  intros Hne. unfold occurrences.
  rewrite filter_app, length_app. cbn.
  rewrite decide_False by exact Hne. cbn. apply Nat.add_0_r.
Qed.

Lemma session_emit (e : effect) (s : State) :
  e <> StartConversation -> session (emit e s) = session s.
Proof.
  intros Hne. unfold session, emit. cbn [_assistant trace].
  rewrite occurrences_snoc by exact Hne. reflexivity.
Qed.

Lemma session_do (e : effect) :
  e <> StartConversation -> keeps session (do e).
Proof. intros Hne s. apply session_emit. exact Hne. Qed.

Lemma session_stop_conversation : keeps session stop_conversation.
Proof.
  intros s. unfold stop_conversation.
  destruct (_assistant s) eqn:Ha; [| reflexivity].
  apply session_emit. discriminate.
Qed.

Lemma session_set_tts_volume (v : Z) : keeps session (set_tts_volume v).
Proof.
  intros s. unfold set_tts_volume. cbn [snd].
  rewrite session_emit by discriminate. reflexivity.
Qed.

Lemma session_status (status : string) :
  keeps session (status_ui_status status).
Proof.
  intros s. unfold status_ui_status. cbn [snd].
  rewrite session_emit by discriminate. reflexivity.
Qed.

Lemma session_on_press : keeps session button_on_press.
Proof.
  intros s. unfold button_on_press. cbn [snd].
  rewrite session_emit by discriminate. reflexivity.
Qed.

Lemma session_set_can_start (b : bool) :
  keeps session (set_can_start_conversation b).
Proof. intros s. reflexivity. Qed.

Create HintDb keeps.
#[local] Hint Resolve keeps_ret keeps_lift keeps_raise keeps_read
  keeps_get_tts_volume keeps_isatty
  shown_do shown_stop_conversation shown_start_conversation
  shown_set_tts_volume
  session_stop_conversation session_set_tts_volume session_status
  session_on_press session_set_can_start : keeps.
#[local] Hint Extern 1 (keeps session (do _)) =>
  apply session_do; discriminate : keeps.

Ltac keeps :=
  repeat first
    [ progress auto with keeps
    | apply keeps_bind; [| intros ?]
    | match goal with
      | |- keeps _ (if ?b then _ else _) => destruct b
      end ].

Lemma keeps_dispatch_command {X : Type} (f : State -> X) (text : string) :
  (forall e, e <> StartConversation -> keeps f (do e)) ->
  keeps f stop_conversation ->
  (forall v, keeps f (set_tts_volume v)) ->
  keeps f (dispatch_command text).
Proof.
  intros Hdo Hstop Hvol.
  assert (Hsay : forall w, keeps f (say w)) by (intros w; apply Hdo; discriminate).
  assert (Hprint : forall w, keeps f (print w)) by (intros w; apply Hdo; discriminate).
  assert (Hcall : forall c, keeps f (do (SubprocessCall c)))
    by (intros c; apply Hdo; discriminate).
  assert (Hout : forall c, keeps f (do (CheckOutput c)))
    by (intros c; apply Hdo; discriminate).
  unfold dispatch_command, power_off_pi, reboot_pi, say_ip, volume_down.
  keeps.
Qed.

Lemma shown_dispatch_command (text : string) :
  keeps shown (dispatch_command text).
Proof.
  apply keeps_dispatch_command; auto with keeps.
Qed.

Lemma session_dispatch_command (text : string) :
  keeps session (dispatch_command text).
Proof.
  apply keeps_dispatch_command; auto with keeps.
  intros e He. apply session_do. exact He.
Qed.

Lemma session_process_event (event : Event) :
  keeps session (_process_event event).
Proof.
  unfold _process_event, print, sys_exit.
  keeps. apply session_dispatch_command.
Qed.

Lemma keeps_on_button_pressed : keeps shown _on_button_pressed.
Proof. unfold _on_button_pressed. keeps. Qed.

Lemma process_event_table (event : Event) (s : State) :
  shown (_process_event event s).2 = table (type event) (shown s).
Proof.
  destruct event as [kind a]. unfold _process_event. cbn [type args].
  destruct kind; cbn [bool_decide decide_rel EventType_eq_dec
    EventType_rec EventType_rect andb table];
    try reflexivity.
  - cbv [mbind M_bind status_ui_status set_can_start_conversation
         button_on_press sys_stdout_isatty emit stdout_isatty].
    destruct s as [c a0 u v b [|] h t]; reflexivity.
  - destruct (args_truthy a); [| reflexivity].
    unfold print. keeps. apply shown_dispatch_command.
  - destruct (args_truthy a); [| reflexivity].
    unfold sys_exit.
    assert (H : keeps shown
      (lift (args_getitem a "is_fatal") ≫= fun is_fatal =>
       if pyval_truthy is_fatal then raise (SystemExit 1) else mret tt))
      by keeps.
    apply H.
Qed.

Lemma button_press_shown (s : State) : shown (button_press s) = shown s.
Proof.
  unfold button_press. destruct (button_callback s); [| reflexivity].
  apply keeps_on_button_pressed.
Qed.

Lemma system_follows_table (acts : list action) :
  forall (task : result unit) (s : State),
  shown (system acts task s).2 =
  fold_left (fun st kind => table kind st) (handled acts task s) (shown s).
Proof.
  induction acts as [| [event |] rest IH]; intros task s; cbn [system handled].
  - reflexivity.
  - destruct task as [u | e].
    + pose proof (process_event_table event s) as Hstep.
      destruct (_process_event event s) as [task' s'].
      cbn [fold_left]. cbn in Hstep. rewrite <- Hstep. apply IH.
    + apply IH.
  - rewrite IH, button_press_shown. reflexivity.
Qed.

Lemma system_stays_raised (acts : list action) :
  forall (e : exn) (s : State), (system acts (Raise e) s).1 = Raise e.
Proof.
  induction acts as [| [event |] rest IH]; intros e s; cbn [system].
  - reflexivity.
  - apply IH.
  - apply IH.
Qed.

Lemma handled_all (acts : list action) :
  forall (s : State),
  (system acts (Ok tt) s).1 = Ok tt ->
  handled acts (Ok tt) s = delivered acts.
Proof.
  induction acts as [| [event |] rest IH]; intros s Hok;
    cbn [system handled delivered] in *.
  - reflexivity.
  - destruct (_process_event event s) as [[[] | e] s'].
    + f_equal. apply IH. exact Hok.
    + rewrite system_stays_raised in Hok. discriminate.
  - apply IH. exact Hok.
Qed.

Lemma system_of_events (events : list Event) :
  forall (s : State),
  system (map Deliver events) (Ok tt) s = for_each_event events s.
Proof.
  induction events as [| event rest IH]; intros s; cbn [map system for_each_event].
  - reflexivity.
  - unfold mbind, M_bind.
    destruct (_process_event event s) as [[[] | e] s'].
    + apply IH.
    + clear IH. generalize s'. induction rest as [| ev rest' IH']; intros s0.
      * reflexivity.
      * cbn [map system]. apply IH'.
Qed.

(** C1: the status and the readiness flag move as the table of section
    4.2 says.  Each event handled takes them to the row of its kind
    (START_FINISHED: ready and true; CONVERSATION_TURN_STARTED: listening
    and false; END_OF_UTTERANCE: thinking, flag kept;
    CONVERSATION_TURN_FINISHED: ready and true; any other kind: both
    kept), whether the handler returns or raises; the button callback
    changes neither; and so, over any run of events and button presses,
    they are the table folded over the kinds of the events handled, which
    are all the events delivered when the loop has not been left. *)
Theorem status_and_readiness_follow_table :
  (forall (event : Event) (s : State),
     shown (_process_event event s).2 = table (type event) (shown s)) /\
  (forall (s : State), shown (_on_button_pressed s).2 = shown s) /\
  (forall (acts : list action) (s : State),
     shown (system acts (Ok tt) s).2 =
     fold_left (fun st kind => table kind st) (handled acts (Ok tt) s)
       (shown s)) /\
  (forall (acts : list action) (s : State),
     (system acts (Ok tt) s).1 = Ok tt ->
     handled acts (Ok tt) s = delivered acts) /\
  (forall (events : list Event) (s : State),
     shown (for_each_event events s).2 =
     fold_left (fun st kind => table kind st)
       (handled (map Deliver events) (Ok tt) s) (shown s)).
Proof.
  split; [exact process_event_table |].
  split; [exact keeps_on_button_pressed |].
  split; [intros acts s; apply system_follows_table |].
  split; [intros acts s; apply handled_all |].
  intros events s. rewrite <- system_of_events. apply system_follows_table.
Qed.

Lemma status_table_witness :
  let acts := [Deliver (mkEvent ON_START_FINISHED None); Press;
               Deliver (mkEvent ON_CONVERSATION_TURN_STARTED None);
               Deliver (mkEvent ON_END_OF_UTTERANCE None)] in
  (system acts (Ok tt) running).1 = Ok tt /\
  handled acts (Ok tt) running = delivered acts /\
  shown (system acts (Ok tt) running).2 = ("thinking", false).
Proof.
  cbv zeta.
  destruct status_and_readiness_follow_table as (_ & _ & Hfold & Hall & _).
  split; [vm_compute; reflexivity |]. split.
  - apply Hall. vm_compute. reflexivity.
  - rewrite Hfold. vm_compute. reflexivity.
Defined.

(** ** The button callback *)

Lemma on_button_pressed_run (a : Assistant) (s : State) :
  _assistant s = Some a ->
  _on_button_pressed s =
  (Ok tt,
   extend s [if _can_start_conversation s then StartConversation
             else StopConversation]).
Proof.
  intros Ha. unfold _on_button_pressed.
  destruct s as [c a0 u v b i h t]; cbn in Ha; subst.
  destruct c; run_handlers.
Qed.

(** C2: with the session handle in place, the button callback does one
    thing and returns: it requests [start_conversation] when the readiness
    flag is true and [stop_conversation] when it is false.  Nothing else
    is done and nothing else changes. *)
Theorem button_starts_or_stops (a : Assistant) (s : State) :
  _assistant s = Some a ->
  (_can_start_conversation s = true ->
   _on_button_pressed s = (Ok tt, extend s [StartConversation])) /\
  (_can_start_conversation s = false ->
   _on_button_pressed s = (Ok tt, extend s [StopConversation])) /\
  _on_button_pressed s =
  (Ok tt,
   extend s [if _can_start_conversation s then StartConversation
             else StopConversation]).
Proof.
  intros Ha. pose proof (on_button_pressed_run a s Ha) as H.
  split; [| split].
  - intros Hc. rewrite Hc in H. exact H.
  - intros Hc. rewrite Hc in H. exact H.
  - exact H.
Qed.

Lemma button_witness :
  _assistant running = Some AssistantHandle /\
  _on_button_pressed running = (Ok tt, extend running [StopConversation]).
Proof.
  split; [reflexivity |].
  apply (button_starts_or_stops AssistantHandle running). reflexivity.
Defined.

Lemma run_task_enters (events : list Event) (world : State) :
  _run_task events (__init__ world) = for_each_event events (entered world).
Proof. reflexivity. Qed.

Lemma button_press_session (s : State) :
  _can_start_conversation s = false ->
  session (button_press s) = session s.
Proof.
  intros Hc. unfold button_press, _on_button_pressed.
  destruct (button_callback s); [| reflexivity].
  cbv [mbind M_bind]. rewrite Hc. apply session_stop_conversation.
Qed.

Lemma not_ready_invariant (acts : list action) :
  forall (task : result unit) (s : State),
  ON_START_FINISHED ∉ delivered acts ->
  ON_CONVERSATION_TURN_FINISHED ∉ delivered acts ->
  _can_start_conversation s = false ->
  _can_start_conversation (system acts task s).2 = false /\
  session (system acts task s).2 = session s.
Proof.
  induction acts as [| [event |] rest IH]; intros task s Hs Hf Hc;
    cbn [system delivered] in *.
  - split; [exact Hc | reflexivity].
  - apply not_elem_of_cons in Hs as [Hs1 Hs2].
    apply not_elem_of_cons in Hf as [Hf1 Hf2].
    destruct task as [u | e]; [| apply IH; assumption].
    pose proof (process_event_table event s) as Hshown.
    pose proof (session_process_event event s) as Hsess.
    destruct (_process_event event s) as [task' s']. cbn [snd] in *.
    assert (Hc' : _can_start_conversation s' = false).
    { change (_can_start_conversation s') with (shown s').2.
      rewrite Hshown. unfold shown. rewrite Hc.
      destruct (type event); try reflexivity; congruence. }
    destruct (IH task' s' Hs2 Hf2 Hc') as [H1 H2].
    split; [exact H1 | congruence].
  - assert (Hc' : _can_start_conversation (button_press s) = false).
    { change (_can_start_conversation (button_press s))
        with (shown (button_press s)).2.
      rewrite button_press_shown. exact Hc. }
    destruct (IH task (button_press s) Hs Hf Hc') as [H1 H2].
    split; [exact H1 |].
    rewrite H2. apply button_press_session. exact Hc.
Qed.

(** ** The button before the assistant is ready *)

(** C10 as stated fails: a CONVERSATION_TURN_STARTED event registers the
    callback and a CONVERSATION_TURN_FINISHED event sets the flag, so with
    no START_FINISHED event handled yet a press requests
    [start_conversation]. *)
Lemma button_starts_before_start_finished :
  let acts := [Deliver (mkEvent ON_CONVERSATION_TURN_STARTED None);
               Deliver (mkEvent ON_CONVERSATION_TURN_FINISHED None)] in
  let s := after (loaded "power-up" false "192.168.1.20") acts in
  (ON_START_FINISHED ∉ delivered acts) /\
  button_callback s = true /\
  _can_start_conversation s = true /\
  _on_button_pressed s = (Ok tt, extend s [StartConversation]) /\
  _on_button_pressed s <> (Ok tt, extend s [StopConversation]).
Proof.
  cbv zeta. split; [| split; [| split; [| split]]].
  - cbn [delivered type]. rewrite !not_elem_of_cons.
    repeat split; try discriminate. apply not_elem_of_nil.
  - vm_compute. reflexivity.
  - vm_compute. reflexivity.
  - vm_compute. reflexivity.
  - vm_compute. discriminate.
Qed.

(** C10, amended: the readiness flag is false when the assistant is built,
    and it is still false after any run of events and button presses in
    which neither a START_FINISHED nor a CONVERSATION_TURN_FINISHED event
    was delivered; a call of the button callback then requests
    [stop_conversation] and nothing else, and no [start_conversation] was
    requested during the run. *)
Theorem button_stops_until_ready (world : State) (acts : list action) :
  ON_START_FINISHED ∉ delivered acts ->
  ON_CONVERSATION_TURN_FINISHED ∉ delivered acts ->
  _can_start_conversation (__init__ world) = false /\
  _can_start_conversation (after world acts) = false /\
  _on_button_pressed (after world acts) =
    (Ok tt, extend (after world acts) [StopConversation]) /\
  occurrences StartConversation (trace (after world acts)) =
    occurrences StartConversation (trace world).
Proof.
  intros Hs Hf.
  destruct (not_ready_invariant acts (Ok tt) (entered world) Hs Hf eq_refl)
    as [Hc Hsess].
  fold (after world acts) in Hc, Hsess.
  unfold session in Hsess. cbn [entered set_assistant snd __init__
    _assistant trace] in Hsess.
  injection Hsess as Ha Hocc.
  split; [reflexivity |]. split; [exact Hc |]. split; [| exact Hocc].
  rewrite (on_button_pressed_run _ _ Ha), Hc. reflexivity.
Qed.

Lemma button_stops_until_ready_witness :
  let acts := [Deliver (mkEvent ON_CONVERSATION_TURN_STARTED None); Press;
               Deliver (mkEvent ON_END_OF_UTTERANCE None)] in
  let world := loaded "power-up" false "192.168.1.20" in
  (ON_START_FINISHED ∉ delivered acts) /\
  (ON_CONVERSATION_TURN_FINISHED ∉ delivered acts) /\
  _on_button_pressed (after world acts) =
    (Ok tt, extend (after world acts) [StopConversation]).
Proof.
  cbv zeta.
  assert (H1 : ON_START_FINISHED ∉
    delivered [Deliver (mkEvent ON_CONVERSATION_TURN_STARTED None); Press;
               Deliver (mkEvent ON_END_OF_UTTERANCE None)]).
  { cbn [delivered type]. rewrite !not_elem_of_cons.
    repeat split; try discriminate. apply not_elem_of_nil. }
  assert (H2 : ON_CONVERSATION_TURN_FINISHED ∉
    delivered [Deliver (mkEvent ON_CONVERSATION_TURN_STARTED None); Press;
               Deliver (mkEvent ON_END_OF_UTTERANCE None)]).
  { cbn [delivered type]. rewrite !not_elem_of_cons.
    repeat split; try discriminate. apply not_elem_of_nil. }
  split; [exact H1 |]. split; [exact H2 |].
  apply (button_stops_until_ready (loaded "power-up" false "192.168.1.20")
           _ H1 H2).
Defined.

(** ** Facts on strings *)

Lemma app_empty (s : string) : EmptyString +:+ s = s.
Proof. reflexivity. Qed.

Lemma app_String (c : ascii) (s t : string) :
  String c s +:+ t = String c (s +:+ t).
Proof. reflexivity. Qed.

Lemma substring_full (s : string) :
  String.substring 0 (String.length s) s = s.
Proof.
  induction s as [| c s IH]; cbn; [reflexivity |]. f_equal. exact IH.
Qed.

Lemma substring_length (s : string) :
  forall i n : nat,
  String.length (String.substring i n s) = Nat.min n (String.length s - i).
Proof.
  induction s as [| c s IH]; intros [| i] [| n]; cbn; try reflexivity.
  - f_equal. rewrite IH. f_equal. lia.
  - apply IH.
  - apply IH.
Qed.

Lemma take_drop (s : string) :
  forall n : nat, s = Py.take n s +:+ Py.drop n s.
Proof.
  unfold Py.take, Py.drop.
  induction s as [| c s IH]; intros [| n]; cbn;
    rewrite ?app_String, ?app_empty; try reflexivity.
  - rewrite substring_full. reflexivity.
  - f_equal. apply IH.
Qed.

Lemma prefix_split (s w : string) :
  String.substring 0 (String.length w) s = w ->
  s = w +:+ Py.drop (String.length w) s.
Proof.
  intros H. rewrite (take_drop s (String.length w)) at 1.
  unfold Py.take. rewrite H. reflexivity.
Qed.

Lemma occurrence_split (s w : string) :
  forall i : nat,
  String.substring i (String.length w) s = w ->
  s = Py.take i s +:+ w +:+ Py.drop (i + String.length w) s.
Proof.
  induction s as [| c s IH]; intros [| i] H.
  - apply (prefix_split EmptyString w H).
  - cbn in H. subst w. reflexivity.
  - apply (prefix_split (String c s) w H).
  - cbn [String.substring] in H. specialize (IH i H).
    unfold Py.take, Py.drop in *. cbn. rewrite app_String.
    f_equal. exact IH.
Qed.

Lemma replace_go_done (fuel : nat) (old new s : string) :
  Py.replace_go fuel old new (Some 0%nat) s = s.
Proof. destruct fuel; reflexivity. Qed.

Lemma replace_first (old s : string) (i : nat) :
  Py.find old s = Some i ->
  Py.replace old EmptyString (Some 1%nat) s =
  Py.take i s +:+ Py.drop (i + String.length old) s.
Proof.
  intros H. unfold Py.replace. cbn [Py.replace_go]. rewrite H.
  cbn [fmap option_fmap option_map Nat.pred].
  rewrite replace_go_done. reflexivity.
Qed.

Lemma contains_find (sub s : string) :
  Py.contains sub s = true -> exists i, Py.find sub s = Some i.
Proof.
  unfold Py.contains. destruct (Py.find sub s) as [i |]; [| discriminate].
  intros _. exists i. reflexivity.
Qed.

(** A text that holds [sub] is not a literal that does not hold it. *)
Lemma contains_differs (sub lit s : string) :
  Py.contains sub s = true ->
  Py.contains sub lit = false ->
  String.eqb s lit = false.
Proof.
  intros Hs Hl. destruct (String.eqb_spec s lit) as [-> |]; [| reflexivity].
  congruence.
Qed.

(** ** Report the IP address *)

(** C6: when the lowered text holds "ip address", the dispatcher requests
    [stop_conversation] and runs the IP report (the shell command, then
    the spoken address).  The text need not hold "what is": the guard
    ['what is' and 'ip address' in text] is the truth value of the
    non-empty literal, which is true, and then the containment test. *)
Theorem ip_address_reports_ip (m : gmap string pyval) (raw : string)
    (a : Assistant) (s : State) :
  m !! "text" = Some (VStr raw) ->
  _assistant s = Some a ->
  Py.contains "ip address" (Py.lower raw) = true ->
  (Py.truthy "what is" && Py.contains "ip address" (Py.lower raw)
   = Py.contains "ip address" (Py.lower raw)) /\
  Py.lower raw <> "power off" /\ Py.lower raw <> "reboot" /\
  _process_event (mkEvent ON_RECOGNIZING_SPEECH_FINISHED (Some m)) s =
  (Ok tt,
   extend s [Print ("You said: " +:+ raw); StopConversation;
             CheckOutput ip_command;
             Say ("My IP address is " +:+ hostname_output s)]) /\
  say_ip (extend s [Print ("You said: " +:+ raw); StopConversation]) =
  (Ok tt,
   extend s [Print ("You said: " +:+ raw); StopConversation;
             CheckOutput ip_command;
             Say ("My IP address is " +:+ hostname_output s)]).
Proof.
  intros Hk Ha Hip.
  assert (Hoff : String.eqb (Py.lower raw) "power off" = false)
    by (apply (contains_differs "ip address"); [exact Hip | reflexivity]).
  assert (Hreboot : String.eqb (Py.lower raw) "reboot" = false)
    by (apply (contains_differs "ip address"); [exact Hip | reflexivity]).
  split; [reflexivity |].
  split; [apply String.eqb_neq; exact Hoff |].
  split; [apply String.eqb_neq; exact Hreboot |].
  rewrite (speech_reaches_commands _ _ _ Hk).
  unfold dispatch_command. rewrite Hoff, Hreboot, Hip.
  cbn [Py.truthy andb].
  destruct s; cbn in Ha; subst.
  split; run_handlers.
Qed.

Lemma ip_address_witness :
  ({[ "text" := VStr "Tell me the IP address" ]} : gmap string pyval)
    !! "text" = Some (VStr "Tell me the IP address") /\
  _assistant running = Some AssistantHandle /\
  Py.contains "ip address" (Py.lower "Tell me the IP address") = true /\
  Py.contains "what is" (Py.lower "Tell me the IP address") = false /\
  _process_event (speech "Tell me the IP address") running =
  (Ok tt,
   extend running [Print "You said: Tell me the IP address";
                   StopConversation; CheckOutput ip_command;
                   Say "My IP address is 192.168.1.20"]).
Proof.
  split; [reflexivity |]. split; [reflexivity |].
  split; [reflexivity |]. split; [reflexivity |].
  apply (ip_address_reports_ip
           {[ "text" := VStr "Tell me the IP address" ]}
           "Tell me the IP address" AssistantHandle running); reflexivity.
Defined.

(** ** Repeat *)

(** C7: when the lowered text holds "repeat" and no earlier rule took it,
    the dispatcher requests [stop_conversation] and speaks the text
    without its first occurrence of "repeat": the text is
    [before ++ "repeat" ++ rest] with no occurrence of "repeat" starting
    inside [before], and what is spoken is [before ++ rest]. *)
Theorem repeat_speaks_text_without_first_repeat (m : gmap string pyval)
    (raw : string) (a : Assistant) (s : State) :
  m !! "text" = Some (VStr raw) ->
  _assistant s = Some a ->
  Py.contains "ip address" (Py.lower raw) = false ->
  Py.contains "repeat" (Py.lower raw) = true ->
  exists (i : nat),
    let text := Py.lower raw in
    let before := Py.take i text in
    let rest := Py.drop (i + 6) text in
    Py.find "repeat" text = Some i /\
    text = before +:+ "repeat" +:+ rest /\
    String.length before = i /\
    (forall j : nat, (j < i)%nat -> String.substring j 6 text <> "repeat") /\
    _process_event (mkEvent ON_RECOGNIZING_SPEECH_FINISHED (Some m)) s =
    (Ok tt,
     extend s [Print ("You said: " +:+ raw); StopConversation;
               Say (before +:+ rest)]).
Proof.
  intros Hk Ha Hip Hrep.
  destruct (contains_find _ _ Hrep) as [i Hi].
  assert (Hoff : String.eqb (Py.lower raw) "power off" = false)
    by (apply (contains_differs "repeat"); [exact Hrep | reflexivity]).
  assert (Hreboot : String.eqb (Py.lower raw) "reboot" = false)
    by (apply (contains_differs "repeat"); [exact Hrep | reflexivity]).
  pose proof (String.index_correct1 _ _ _ _ Hi) as Hocc.
  pose proof (occurrence_split _ "repeat" i Hocc) as Hsplit.
  exists i. cbv zeta. split; [exact Hi |].
  split; [exact Hsplit |]. split; [| split].
  - apply (f_equal String.length) in Hocc.
    rewrite substring_length in Hocc. cbn [String.length] in Hocc.
    unfold Py.take. rewrite substring_length. lia.
  - intros j Hj. apply (String.index_correct2 _ _ _ _ Hi); lia.
  - rewrite (speech_reaches_commands _ _ _ Hk).
    unfold dispatch_command. rewrite Hoff, Hreboot, Hip, Hrep.
    cbn [Py.truthy andb].
    rewrite (replace_first _ _ _ Hi).
    destruct s; cbn in Ha; subst.
    run_handlers.
Qed.

Lemma repeat_witness :
  ({[ "text" := VStr "please repeat that cat fact" ]} : gmap string pyval)
    !! "text" = Some (VStr "please repeat that cat fact") /\
  _assistant running = Some AssistantHandle /\
  Py.contains "ip address" (Py.lower "please repeat that cat fact") = false /\
  Py.contains "repeat" (Py.lower "please repeat that cat fact") = true /\
  _process_event (speech "please repeat that cat fact") running =
  (Ok tt,
   extend running [Print "You said: please repeat that cat fact";
                   StopConversation; Say "please  that cat fact"]).
Proof.
  split; [reflexivity |]. split; [reflexivity |].
  split; [reflexivity |]. split; [reflexivity |].
  destruct (repeat_speaks_text_without_first_repeat
              {[ "text" := VStr "please repeat that cat fact" ]}
              "please repeat that cat fact" AssistantHandle running)
    as (i & Hfind & _ & _ & _ & Hrun); [reflexivity .. |].
  vm_compute in Hfind. injection Hfind as <-.
  exact Hrun.
Defined.

(** ** Volume down, and volume up *)

Lemma volume_down_run (s : State) :
  volume_down s =
  (Ok tt,
   extend (with_volume s (Z.max 0 (tts_volume s - 2)))
     [SetTtsVolume (Z.max 0 (tts_volume s - 2)); Say "Ok, done"]).
Proof.
  destruct s as [c a u v b i h t].
  unfold volume_down. cbv [mbind M_bind get_tts_volume tts_volume].
  destruct (Z.ltb_spec v 2) as [Hlt | Hge].
  - replace (Z.max 0 (v - 2)) with 0 by lia. run_handlers.
  - replace (Z.max 0 (v - 2)) with (v - 2) by lia. run_handlers.
Qed.

(** C5: when the lowered text holds "secondary volume down", or holds
    "secondary volume up", and no earlier rule took it, the dispatcher
    requests [stop_conversation] and then runs [volume_down] in both
    cases: the volume becomes [max 0 (previous - 2)] and "Ok, done" is
    spoken.  "secondary volume up" lowers the volume as well. *)
Theorem volume_down_and_up_lower_the_volume (m : gmap string pyval)
    (raw : string) (a : Assistant) (s : State) :
  m !! "text" = Some (VStr raw) ->
  _assistant s = Some a ->
  Py.contains "ip address" (Py.lower raw) = false ->
  Py.contains "repeat" (Py.lower raw) = false ->
  Py.contains "secondary volume to" (Py.lower raw) = false ->
  Py.contains "secondary volume down" (Py.lower raw) = true \/
  Py.contains "secondary volume up" (Py.lower raw) = true ->
  let v := Z.max 0 (tts_volume s - 2) in
  _process_event (mkEvent ON_RECOGNIZING_SPEECH_FINISHED (Some m)) s =
  (Ok tt,
   extend (with_volume s v)
     [Print ("You said: " +:+ raw); StopConversation; SetTtsVolume v;
      Say "Ok, done"]) /\
  volume_down (extend s [Print ("You said: " +:+ raw); StopConversation]) =
  (Ok tt,
   extend (with_volume s v)
     [Print ("You said: " +:+ raw); StopConversation; SetTtsVolume v;
      Say "Ok, done"]).
Proof.
  intros Hk Ha Hip Hrep Hto Hdir v.
  assert (Hoff : String.eqb (Py.lower raw) "power off" = false).
  { destruct Hdir as [H | H];
      [apply (contains_differs "secondary volume down")
      | apply (contains_differs "secondary volume up")];
      first [exact H | reflexivity]. }
  assert (Hreboot : String.eqb (Py.lower raw) "reboot" = false).
  { destruct Hdir as [H | H];
      [apply (contains_differs "secondary volume down")
      | apply (contains_differs "secondary volume up")];
      first [exact H | reflexivity]. }
  assert (Hdown : volume_down
            (extend s [Print ("You said: " +:+ raw); StopConversation]) =
          (Ok tt,
           extend (with_volume s v)
             [Print ("You said: " +:+ raw); StopConversation;
              SetTtsVolume v; Say "Ok, done"])).
  { rewrite volume_down_run. subst v. destruct s. run_handlers. }
  split; [| exact Hdown].
  rewrite (speech_reaches_commands _ _ _ Hk).
  unfold dispatch_command. rewrite Hoff, Hreboot, Hip, Hrep, Hto.
  cbn [Py.truthy andb].
  assert (Hstop : stop_conversation (emit (Print ("You said: " +:+ raw)) s)
            = (Ok tt,
               extend s [Print ("You said: " +:+ raw); StopConversation])).
  { destruct s; cbn in Ha; subst. run_handlers. }
  destruct Hdir as [H | H].
  - rewrite H. unfold mbind, M_bind at 1. rewrite Hstop. exact Hdown.
  - destruct (Py.contains "secondary volume down" (Py.lower raw));
      [| rewrite H]; unfold mbind, M_bind at 1; rewrite Hstop; exact Hdown.
Qed.

Lemma volume_up_witness :
  ({[ "text" := VStr "Secondary volume up" ]} : gmap string pyval)
    !! "text" = Some (VStr "Secondary volume up") /\
  _assistant running = Some AssistantHandle /\
  Py.contains "secondary volume up" (Py.lower "Secondary volume up") = true /\
  tts_volume running = 2 /\
  _process_event (speech "Secondary volume up") running =
  (Ok tt,
   extend (with_volume running 0)
     [Print "You said: Secondary volume up"; StopConversation;
      SetTtsVolume 0; Say "Ok, done"]).
Proof.
  split; [reflexivity |]. split; [reflexivity |].
  split; [reflexivity |]. split; [reflexivity |].
  apply (volume_down_and_up_lower_the_volume
           {[ "text" := VStr "Secondary volume up" ]}
           "Secondary volume up" AssistantHandle running);
    first [reflexivity | right; reflexivity].
Defined.

(** ** Set the volume *)

Lemma digit_tokens_none (tokens : list string) :
  Forall (fun t => Py.isdigit t = false) tokens ->
  digit_tokens tokens = Ok [].
Proof.
  induction 1 as [| t rest Ht _ IH]; cbn [digit_tokens].
  - reflexivity.
  - rewrite Ht. exact IH.
Qed.

Lemma set_volume_run (m : gmap string pyval) (raw : string)
    (a : Assistant) (s : State) (v : Z) (vs : list Z) :
  m !! "text" = Some (VStr raw) ->
  _assistant s = Some a ->
  Py.contains "ip address" (Py.lower raw) = false ->
  Py.contains "repeat" (Py.lower raw) = false ->
  Py.contains "secondary volume to" (Py.lower raw) = true ->
  digit_tokens (volume_tokens (Py.lower raw)) = Ok (v :: vs) ->
  _process_event (mkEvent ON_RECOGNIZING_SPEECH_FINISHED (Some m)) s =
  (Ok tt,
   extend (with_volume s v)
     [Print ("You said: " +:+ raw); StopConversation;
      Print (Py.str_list (v :: vs));
      Say ("Ok, I've set the secondary volume to" +:+ Py.str v +:+ "%");
      Print (Py.str_list (v :: vs)); SetTtsVolume v]).
Proof.
  intros Hk Ha Hip Hrep Hto Htok.
  assert (Hoff : String.eqb (Py.lower raw) "power off" = false)
    by (apply (contains_differs "secondary volume to");
        [exact Hto | reflexivity]).
  assert (Hreboot : String.eqb (Py.lower raw) "reboot" = false)
    by (apply (contains_differs "secondary volume to");
        [exact Hto | reflexivity]).
  rewrite (speech_reaches_commands _ _ _ Hk).
  unfold dispatch_command. rewrite Hoff, Hreboot, Hip, Hrep, Hto.
  cbn [Py.truthy andb]. cbv zeta.
  fold (volume_tokens (Py.lower raw)).
  destruct s; cbn in Ha; subst.
  cbv [mbind M_bind lift stop_conversation _assistant]. rewrite Htok.
  run_handlers.
Qed.

(** C9: when the lowered text holds "secondary volume to", no earlier
    rule took it and none of its tokens is a digit token, the handler
    raises [IndexError] at [volume[0]]: the text is not treated as
    unmatched.  By then [stop_conversation] has been requested and the
    empty list printed, and both stay done. *)
Theorem set_volume_without_digits_raises (m : gmap string pyval)
    (raw : string) (a : Assistant) (s : State) :
  m !! "text" = Some (VStr raw) ->
  _assistant s = Some a ->
  Py.contains "ip address" (Py.lower raw) = false ->
  Py.contains "repeat" (Py.lower raw) = false ->
  Py.contains "secondary volume to" (Py.lower raw) = true ->
  Forall (fun t => Py.isdigit t = false) (volume_tokens (Py.lower raw)) ->
  _process_event (mkEvent ON_RECOGNIZING_SPEECH_FINISHED (Some m)) s =
  (Raise IndexError,
   extend s [Print ("You said: " +:+ raw); StopConversation; Print "[]"])
  /\ getitem0 [] = Raise IndexError
  /\ occurrences StopConversation
       [Print ("You said: " +:+ raw); StopConversation; Print "[]"] = 1%nat.
Proof.
  intros Hk Ha Hip Hrep Hto Hnone.
  assert (Hoff : String.eqb (Py.lower raw) "power off" = false)
    by (apply (contains_differs "secondary volume to");
        [exact Hto | reflexivity]).
  assert (Hreboot : String.eqb (Py.lower raw) "reboot" = false)
    by (apply (contains_differs "secondary volume to");
        [exact Hto | reflexivity]).
  split; [| split; reflexivity].
  rewrite (speech_reaches_commands _ _ _ Hk).
  unfold dispatch_command. rewrite Hoff, Hreboot, Hip, Hrep, Hto.
  cbn [Py.truthy andb]. cbv zeta.
  fold (volume_tokens (Py.lower raw)).
  destruct s; cbn in Ha; subst.
  cbv [mbind M_bind lift stop_conversation _assistant].
  rewrite (digit_tokens_none _ Hnone).
  run_handlers.
Qed.

Lemma set_volume_without_digits_witness :
  ({[ "text" := VStr "Set secondary volume to maximum" ]}
     : gmap string pyval) !! "text"
    = Some (VStr "Set secondary volume to maximum") /\
  _assistant running = Some AssistantHandle /\
  Py.contains "secondary volume to"
    (Py.lower "Set secondary volume to maximum") = true /\
  volume_tokens (Py.lower "Set secondary volume to maximum")
    = ["set"; "secondary"; "volume"; "to"; "maximum"] /\
  _process_event (speech "Set secondary volume to maximum") running =
  (Raise IndexError,
   extend running [Print "You said: Set secondary volume to maximum";
                   StopConversation; Print "[]"]).
Proof.
  split; [reflexivity |]. split; [reflexivity |].
  split; [reflexivity |]. split; [reflexivity |].
  apply (set_volume_without_digits_raises
           {[ "text" := VStr "Set secondary volume to maximum" ]}
           "Set secondary volume to maximum" AssistantHandle running).
  - reflexivity.
  - reflexivity.
  - vm_compute. reflexivity.
  - vm_compute. reflexivity.
  - vm_compute. reflexivity.
  - change (Forall (fun t => Py.isdigit t = false)
              ["set"; "secondary"; "volume"; "to"; "maximum"]).
    repeat constructor.
Defined.

Example set_volume_42 :
  _process_event (speech "set secondary volume to 42%") running =
  (Ok tt,
   extend (with_volume running 42)
     [Print "You said: set secondary volume to 42%"; StopConversation;
      Print "[42]"; Say "Ok, I've set the secondary volume to42%";
      Print "[42]"; SetTtsVolume 42])
  /\ Py.contains "42" "Ok, I've set the secondary volume to42%" = true.
Proof. split; vm_compute; reflexivity. Qed.

(** C4: the set-volume branch stores the first number of the text as it
    is.  For "set secondary volume to 500" the volume becomes 500, where
    clamping to the range 0..100 gives 100; [volume_up] and [volume_down]
    do keep the volume in that range. *)
Theorem set_volume_is_not_clamped :
  let s' := (_process_event (speech "set secondary volume to 500")
               running).2 in
  digit_tokens (volume_tokens "set secondary volume to 500") = Ok [500] /\
  _process_event (speech "set secondary volume to 500") running =
  (Ok tt,
   extend (with_volume running 500)
     [Print "You said: set secondary volume to 500"; StopConversation;
      Print "[500]"; Say "Ok, I've set the secondary volume to500%";
      Print "[500]"; SetTtsVolume 500]) /\
  tts_volume s' = 500 /\
  tts_volume s' <> Z.min 100 (Z.max 0 500) /\
  tts_volume (volume_up (with_volume running 99)).2 = 100 /\
  tts_volume (volume_down (with_volume running 1)).2 = 0.
Proof.
  cbv zeta. repeat split; try (vm_compute; reflexivity).
  vm_compute. discriminate.
Qed.

(** ** Assistant errors *)

Lemma fatal_error_raises (m : gmap string pyval) (v : pyval) (s : State) :
  m !! "is_fatal" = Some v ->
  pyval_truthy v = true ->
  _process_event (mkEvent ON_ASSISTANT_ERROR (Some m)) s =
  (Raise (SystemExit 1), s).
Proof.
  intros Hk Hv. unfold _process_event. cbn [type args].
  rewrite (args_truthy_lookup _ _ _ Hk).
  cbn [bool_decide decide_rel EventType_eq_dec EventType_rec EventType_rect
       andb].
  unfold mbind, M_bind, lift, args_getitem. rewrite Hk, Hv. reflexivity.
Qed.

Lemma other_error_is_ignored (m : gmap string pyval) (v : pyval)
    (s : State) :
  m !! "is_fatal" = Some v ->
  pyval_truthy v = false ->
  _process_event (mkEvent ON_ASSISTANT_ERROR (Some m)) s = (Ok tt, s).
Proof.
  intros Hk Hv. unfold _process_event. cbn [type args].
  rewrite (args_truthy_lookup _ _ _ Hk).
  cbn [bool_decide decide_rel EventType_eq_dec EventType_rec EventType_rect
       andb].
  unfold mbind, M_bind, lift, args_getitem. rewrite Hk, Hv. reflexivity.
Qed.

Lemma error_without_args_is_ignored (a : option (gmap string pyval))
    (s : State) :
  args_truthy a = false ->
  _process_event (mkEvent ON_ASSISTANT_ERROR a) s = (Ok tt, s).
Proof.
  intros Ha. unfold _process_event. cbn [type args]. rewrite Ha.
  reflexivity.
Qed.

Lemma for_each_event_raises (event : Event) (later : list Event)
    (e : exn) (s s' : State) :
  _process_event event s = (Raise e, s') ->
  for_each_event (event :: later) s = (Raise e, s').
Proof.
  intros H. cbn [for_each_event]. unfold mbind, M_bind. rewrite H.
  reflexivity.
Qed.

(** C8: a fatal ASSISTANT_ERROR event makes the handler call
    [sys.exit(1)], and the loop of [_run_task] handles no later event.
    The call is made on the thread started by [start], so [SystemExit]
    ends that thread only, and the exit status left to the process is the
    one of the main thread, 0, not 1. *)
Theorem fatal_error_exit_stays_in_thread (world : State)
    (later : list Event) :
  _process_event (assistant_error true) (entered world) =
    (Raise (SystemExit 1), entered world) /\
  _run_task (assistant_error true :: later) (__init__ world) =
    (Raise (SystemExit 1), entered world) /\
  main (assistant_error true :: later) world =
    (0, DroppedSystemExit 1, entered world).
Proof.
  assert (H : _process_event (assistant_error true) (entered world) =
              (Raise (SystemExit 1), entered world))
    by (apply (fatal_error_raises _ (VBool true)); reflexivity).
  assert (Hrun : _run_task (assistant_error true :: later) (__init__ world)
                 = (Raise (SystemExit 1), entered world)).
  { rewrite run_task_enters. apply for_each_event_raises. exact H. }
  split; [exact H |]. split; [exact Hrun |].
  unfold main, start, Thread_run. rewrite Hrun. reflexivity.
Qed.

(** ** Events that are ignored, and arguments that are missing *)

(** An event of a kind the handler does not test for changes nothing at
    all, and neither does a RECOGNIZING_SPEECH_FINISHED or ASSISTANT_ERROR
    event whose arguments are [None] or empty. *)
Theorem untested_event_changes_nothing (event : Event) (s : State) :
  type event <> ON_START_FINISHED ->
  type event <> ON_CONVERSATION_TURN_STARTED ->
  type event <> ON_END_OF_UTTERANCE ->
  type event <> ON_CONVERSATION_TURN_FINISHED ->
  (type event = ON_RECOGNIZING_SPEECH_FINISHED \/
   type event = ON_ASSISTANT_ERROR -> args_truthy (args event) = false) ->
  _process_event event s = (Ok tt, s).
Proof.
  destruct event as [kind a]. cbn [type args].
  intros H1 H2 H3 H4 Hargs. unfold _process_event. cbn [type args].
  destruct kind; try congruence;
    cbn [bool_decide decide_rel EventType_eq_dec EventType_rec
         EventType_rect andb];
    try reflexivity.
  - rewrite Hargs by (left; reflexivity). reflexivity.
  - rewrite Hargs by (right; reflexivity). reflexivity.
Qed.

Lemma untested_event_witness :
  _process_event (mkEvent ON_RECOGNIZING_SPEECH_FINISHED (Some ∅)) running
    = (Ok tt, running) /\
  _process_event (mkEvent ON_RESPONDING_STARTED
                    (Some {[ "is_error_response" := VBool false ]})) running
    = (Ok tt, running).
Proof.
  split.
  - apply (untested_event_changes_nothing
             (mkEvent ON_RECOGNIZING_SPEECH_FINISHED (Some ∅)) running);
      try discriminate.
    intros _. reflexivity.
  - apply (untested_event_changes_nothing
             (mkEvent ON_RESPONDING_STARTED
                (Some {[ "is_error_response" := VBool false ]})) running);
      try discriminate.
    intros [H | H]; discriminate H.
Defined.

(** Arguments that are not empty but lack the key the handler reads make
    it raise [KeyError] before anything is done: "text" for recognized
    speech, "is_fatal" for an assistant error. *)
Theorem missing_key_raises_key_error (m : gmap string pyval) (s : State) :
  m <> ∅ ->
  (m !! "text" = None ->
   _process_event (mkEvent ON_RECOGNIZING_SPEECH_FINISHED (Some m)) s =
   (Raise (KeyError "text"), s)) /\
  (m !! "is_fatal" = None ->
   _process_event (mkEvent ON_ASSISTANT_ERROR (Some m)) s =
   (Raise (KeyError "is_fatal"), s)).
Proof.
  intros Hne.
  assert (Htruthy : args_truthy (Some m) = true).
  { unfold args_truthy. destruct (Nat.eqb_spec (size m) 0) as [Hz |];
      [| reflexivity].
    apply map_size_empty_iff in Hz. contradiction. }
  split; intros Hk; unfold _process_event; cbn [type args];
    rewrite Htruthy;
    cbn [bool_decide decide_rel EventType_eq_dec EventType_rec
         EventType_rect andb];
    unfold mbind, M_bind, lift, args_getitem; rewrite Hk; reflexivity.
Qed.

Lemma missing_key_witness :
  ({[ "is_fatal" := VBool true ]} : gmap string pyval) <> ∅ /\
  _process_event
    (mkEvent ON_RECOGNIZING_SPEECH_FINISHED
       (Some {[ "is_fatal" := VBool true ]})) running =
  (Raise (KeyError "text"), running) /\
  _process_event
    (mkEvent ON_ASSISTANT_ERROR (Some {[ "text" := VStr "reboot" ]}))
    running =
  (Raise (KeyError "is_fatal"), running).
Proof.
  assert (H1 : ({[ "is_fatal" := VBool true ]} : gmap string pyval) <> ∅)
    by apply map_non_empty_singleton.
  assert (H2 : ({[ "text" := VStr "reboot" ]} : gmap string pyval) <> ∅)
    by apply map_non_empty_singleton.
  split; [exact H1 |]. split.
  - apply (missing_key_raises_key_error _ running H1). reflexivity.
  - apply (missing_key_raises_key_error _ running H2). reflexivity.
Defined.

(** ** Reboot, and speech that is no command *)

(** When the recognized text lowers to "reboot", the dispatcher requests
    [stop_conversation] once and then runs [reboot_pi]: the farewell is
    spoken before the reboot command is issued, and nothing else is
    done. *)
Theorem reboot_stops_then_reboots (m : gmap string pyval) (raw : string)
    (a : Assistant) (s : State) :
  m !! "text" = Some (VStr raw) ->
  Py.lower raw = "reboot" ->
  _assistant s = Some a ->
  _process_event (mkEvent ON_RECOGNIZING_SPEECH_FINISHED (Some m)) s =
  (Ok tt,
   extend s [Print ("You said: " +:+ raw); StopConversation;
             Say "See you in a bit!"; SubprocessCall "sudo reboot"])
  /\ reboot_pi (extend s [Print ("You said: " +:+ raw); StopConversation])
     = (Ok tt,
        extend s [Print ("You said: " +:+ raw); StopConversation;
                  Say "See you in a bit!"; SubprocessCall "sudo reboot"]).
Proof.
  intros Hk Hlow Ha.
  rewrite (speech_reaches_commands _ _ _ Hk), Hlow.
  unfold dispatch_command. cbn [String.eqb Ascii.eqb Bool.eqb].
  destruct s; cbn in Ha; subst.
  split; run_handlers.
Qed.

Lemma reboot_witness :
  ({[ "text" := VStr "REBOOT" ]} : gmap string pyval) !! "text"
    = Some (VStr "REBOOT") /\
  Py.lower "REBOOT" = "reboot" /\
  _assistant running = Some AssistantHandle /\
  _process_event (speech "REBOOT") running =
  (Ok tt,
   extend running [Print "You said: REBOOT"; StopConversation;
                   Say "See you in a bit!"; SubprocessCall "sudo reboot"]).
Proof.
  split; [reflexivity |]. split; [reflexivity |]. split; [reflexivity |].
  apply (reboot_stops_then_reboots {[ "text" := VStr "REBOOT" ]} "REBOOT"
           AssistantHandle running); reflexivity.
Defined.

(** When no rule matches the lowered text, the dispatcher prints what was
    said and does nothing else: the conversation is not stopped, with or
    without a session.  "power off" and "reboot" must be the whole text:
    a longer sentence that holds them is no command. *)
Theorem unmatched_speech_is_only_printed (m : gmap string pyval)
    (raw : string) (s : State) :
  m !! "text" = Some (VStr raw) ->
  Py.lower raw <> "power off" ->
  Py.lower raw <> "reboot" ->
  Py.contains "ip address" (Py.lower raw) = false ->
  Py.contains "repeat" (Py.lower raw) = false ->
  Py.contains "secondary volume to" (Py.lower raw) = false ->
  Py.contains "secondary volume down" (Py.lower raw) = false ->
  Py.contains "secondary volume up" (Py.lower raw) = false ->
  _process_event (mkEvent ON_RECOGNIZING_SPEECH_FINISHED (Some m)) s =
  (Ok tt, extend s [Print ("You said: " +:+ raw)]).
Proof.
  intros Hk Hoff Hreboot Hip Hrep Hto Hdown Hup.
  apply String.eqb_neq in Hoff, Hreboot.
  rewrite (speech_reaches_commands _ _ _ Hk).
  unfold dispatch_command.
  rewrite Hoff, Hreboot, Hip, Hrep, Hto, Hdown, Hup.
  cbn [Py.truthy andb]. destruct s. run_handlers.
Qed.

Lemma unmatched_speech_witness :
  ({[ "text" := VStr "Power off please" ]} : gmap string pyval) !! "text"
    = Some (VStr "Power off please") /\
  Py.lower "Power off please" <> "power off" /\
  _process_event (speech "Power off please") running =
  (Ok tt, extend running [Print "You said: Power off please"]).
Proof.
  split; [reflexivity |]. split; [vm_compute; discriminate |].
  apply (unmatched_speech_is_only_printed
           {[ "text" := VStr "Power off please" ]} "Power off please"
           running).
  - reflexivity.
  - vm_compute. discriminate.
  - vm_compute. discriminate.
  - vm_compute. reflexivity.
  - vm_compute. reflexivity.
  - vm_compute. reflexivity.
  - vm_compute. reflexivity.
  - vm_compute. reflexivity.
Defined.

(** ** What the handlers leave alone *)

Section Frame.
Context {X : Type} (f : State -> X).
Hypothesis f_emit : forall e s, f (emit e s) = f s.
Hypothesis f_volume : forall s v, f (with_volume s v) = f s.

Lemma frame_do (e : effect) : keeps f (do e).
Proof. intros s. apply f_emit. Qed.

Lemma frame_stop_conversation : keeps f stop_conversation.
Proof.
  intros s. unfold stop_conversation.
  destruct (_assistant s); [apply f_emit | reflexivity].
Qed.

Lemma frame_start_conversation : keeps f start_conversation.
Proof.
  intros s. unfold start_conversation.
  destruct (_assistant s); [apply f_emit | reflexivity].
Qed.

Lemma frame_set_tts_volume (v : Z) : keeps f (set_tts_volume v).
Proof.
  intros s. change (set_tts_volume v s).2
    with (emit (SetTtsVolume v) (with_volume s v)).
  rewrite f_emit. apply f_volume.
Qed.

Lemma frame_dispatch_command (text : string) :
  keeps f (dispatch_command text).
Proof.
  apply keeps_dispatch_command.
  - intros e _. apply frame_do.
  - apply frame_stop_conversation.
  - apply frame_set_tts_volume.
Qed.

Lemma frame_on_button_pressed : keeps f _on_button_pressed.
Proof.
  unfold _on_button_pressed.
  apply keeps_bind; [apply keeps_read |].
  intros [|]; [apply frame_start_conversation | apply frame_stop_conversation].
Qed.
End Frame.

Lemma surroundings_process_event (event : Event) :
  keeps surroundings (_process_event event).
Proof.
  assert (Hdo : forall e, keeps surroundings (do e))
    by (intros e; apply frame_do; reflexivity).
  assert (Hstatus : forall st, keeps surroundings (status_ui_status st))
    by (intros st s; reflexivity).
  assert (Hflag : forall b, keeps surroundings (set_can_start_conversation b))
    by (intros b s; reflexivity).
  assert (Hpress : keeps surroundings button_on_press)
    by (intros s; reflexivity).
  unfold _process_event, print, sys_exit.
  keeps. apply frame_dispatch_command; reflexivity.
Qed.

(** No handler requests [start_conversation]: whatever the event, the
    number of start requests in the trace is the same before and after.
    Nor does a handler replace the session handle or touch what it only
    reads (the terminal test and the output of the IP lookup).  Starting
    a conversation is left to the button callback. *)
Theorem handlers_never_start_a_conversation (event : Event) (s : State) :
  occurrences StartConversation (trace (_process_event event s).2) =
  occurrences StartConversation (trace s) /\
  _assistant (_process_event event s).2 = _assistant s /\
  stdout_isatty (_process_event event s).2 = stdout_isatty s /\
  hostname_output (_process_event event s).2 = hostname_output s.
Proof.
  pose proof (session_process_event event s) as Hsess.
  pose proof (surroundings_process_event event s) as Hsur.
  unfold session in Hsess. unfold surroundings in Hsur.
  injection Hsess as _ Hocc. injection Hsur as Ha Htty Hhost.
  auto.
Qed.

Lemma process_event_callback (event : Event) (s : State) :
  button_callback (_process_event event s).2 =
  button_callback s || registers (type event).
Proof.
  destruct event as [kind a]. unfold _process_event. cbn [type args].
  destruct kind; unfold registers;
    cbn [bool_decide decide_rel EventType_eq_dec EventType_rec
         EventType_rect andb orb];
    rewrite ?orb_false_r, ?orb_true_r; try reflexivity.
  - cbv [mbind M_bind status_ui_status set_can_start_conversation
         button_on_press sys_stdout_isatty emit stdout_isatty].
    destruct s as [c a0 u v b [|] h t]; reflexivity.
  - destruct (args_truthy a); [| reflexivity].
    assert (H : keeps button_callback
      (lift (args_getitem a "text") ≫= fun said =>
       print ("You said: " +:+ pyval_str said) ≫= fun _ =>
       lift (args_getitem a "text") ≫= fun said =>
       lift (pyval_lower said) ≫= fun text => dispatch_command text)).
    { unfold print. keeps.
      - apply frame_do; reflexivity.
      - apply frame_dispatch_command; reflexivity. }
    apply H.
  - destruct (args_truthy a); [| reflexivity].
    assert (H : keeps button_callback
      (lift (args_getitem a "is_fatal") ≫= fun is_fatal =>
       if pyval_truthy is_fatal then raise (SystemExit 1) else mret tt))
      by keeps.
    apply H.
Qed.

(** The button callback is registered by the START_FINISHED and the
    CONVERSATION_TURN_STARTED handlers and by no other; no handler ever
    removes it.  After an event the callback is registered exactly when it
    was before or the event is of one of these two kinds. *)
Theorem callback_registered_by_two_kinds (event : Event) (s : State) :
  button_callback (_process_event event s).2 =
  button_callback s || registers (type event).
Proof. apply process_event_callback. Qed.

(** Until an event of one of the two registering kinds has been handled,
    pressing the button does nothing: a run from a state without a
    callback, in which no such event is delivered, ends as the same run
    without its presses. *)
Theorem presses_before_registration_do_nothing (acts : list action)
    (task : result unit) (s : State) :
  button_callback s = false ->
  Forall (fun kind => registers kind = false) (delivered acts) ->
  system acts task s = system (deliveries acts) task s.
Proof.
  revert task s.
  induction acts as [| [event |] rest IH]; intros task s Hcb Hkinds;
    cbn [system deliveries delivered] in *.
  - reflexivity.
  - apply Forall_cons in Hkinds as [Hkind Hrest].
    destruct task as [u | e]; [| apply IH; assumption].
    pose proof (process_event_callback event s) as Hstep.
    destruct (_process_event event s) as [task' s']. cbn [snd] in Hstep.
    apply IH; [| exact Hrest]. rewrite Hstep, Hcb, Hkind. reflexivity.
  - unfold button_press. rewrite Hcb. apply IH; assumption.
Qed.

Lemma presses_before_registration_witness :
  let acts := [Press; Deliver (mkEvent ON_END_OF_UTTERANCE None); Press;
               Deliver (speech "repeat after me"); Press] in
  let s := entered (loaded "power-up" false "192.168.1.20") in
  button_callback s = false /\
  system acts (Ok tt) s =
  (Ok tt,
   mkState false (Some AssistantHandle) "thinking" 2 false false
     "192.168.1.20"
     [Status "thinking"; Print "You said: repeat after me";
      StopConversation; Say " after me"]).
Proof.
  cbv zeta. split; [reflexivity |].
  rewrite (presses_before_registration_do_nothing
             [Press; Deliver (mkEvent ON_END_OF_UTTERANCE None); Press;
              Deliver (speech "repeat after me"); Press]
             (Ok tt) (entered (loaded "power-up" false "192.168.1.20"))).
  - vm_compute. reflexivity.
  - reflexivity.
  - cbn [delivered type speech]. repeat constructor.
Defined.

(** ** Without a session *)

(** While [self._assistant] is still [None], as [__init__] leaves it, the
    button callback raises [AttributeError] and changes nothing, and
    recognized speech is printed and then either matches no rule or
    raises [AttributeError] at [stop_conversation]: nothing is spoken, no
    command is run, the volume is not changed. *)
Theorem without_session_nothing_is_done (m : gmap string pyval)
    (raw : string) (s : State) :
  _assistant s = None ->
  m !! "text" = Some (VStr raw) ->
  _on_button_pressed s = (Raise AttributeError, s) /\
  (_process_event (mkEvent ON_RECOGNIZING_SPEECH_FINISHED (Some m)) s =
     (Ok tt, extend s [Print ("You said: " +:+ raw)]) \/
   _process_event (mkEvent ON_RECOGNIZING_SPEECH_FINISHED (Some m)) s =
     (Raise AttributeError, extend s [Print ("You said: " +:+ raw)])).
Proof.
  intros Ha Hk. split.
  - unfold _on_button_pressed, start_conversation, stop_conversation.
    cbv [mbind M_bind]. destruct (_can_start_conversation s);
      rewrite Ha; reflexivity.
  - rewrite (speech_reaches_commands _ _ _ Hk).
    destruct s as [c a u v b i h t]; cbn in Ha; subst.
    unfold dispatch_command.
    repeat match goal with
           | |- context [if ?b then _ else _] => destruct b
           end;
      first [left; run_handlers; fail | right; run_handlers; fail].
Qed.

Lemma without_session_witness :
  _assistant (__init__ running) = None /\
  _on_button_pressed (__init__ running) =
    (Raise AttributeError, __init__ running) /\
  _process_event (speech "power off") (__init__ running) =
    (Raise AttributeError,
     extend (__init__ running) [Print "You said: power off"]).
Proof.
  split; [reflexivity |].
  destruct (without_session_nothing_is_done
              {[ "text" := VStr "power off" ]} "power off"
              (__init__ running)) as [Hbutton Hspeech];
    [reflexivity | reflexivity |].
  split; [exact Hbutton |].
  destruct Hspeech as [H | H]; [| exact H].
  vm_compute in H. discriminate H.
Defined.

(** ** The two volume steps *)

Lemma volume_up_run (s : State) :
  volume_up s =
  (Ok tt,
   extend (with_volume s (Z.min 100 (tts_volume s + 2)))
     [SetTtsVolume (Z.min 100 (tts_volume s + 2)); Say "Ok, done"]).
Proof.
  destruct s as [c a u v b i h t].
  unfold volume_up. cbv [mbind M_bind get_tts_volume tts_volume].
  destruct (Z.gtb_spec v 98) as [Hgt | Hle].
  - replace (Z.min 100 (v + 2)) with 100 by lia. run_handlers.
  - replace (Z.min 100 (v + 2)) with (v + 2) by lia. run_handlers.
Qed.

(** [volume_up] and [volume_down] keep a volume that is in the range
    0..100 in that range: [volume_up] gives [min 100 (v + 2)] and
    [volume_down] gives [max 0 (v - 2)], each with one "Ok, done". *)
Theorem volume_steps_stay_in_range (s : State) :
  0 <= tts_volume s <= 100 ->
  volume_up s =
    (Ok tt,
     extend (with_volume s (Z.min 100 (tts_volume s + 2)))
       [SetTtsVolume (Z.min 100 (tts_volume s + 2)); Say "Ok, done"]) /\
  volume_down s =
    (Ok tt,
     extend (with_volume s (Z.max 0 (tts_volume s - 2)))
       [SetTtsVolume (Z.max 0 (tts_volume s - 2)); Say "Ok, done"]) /\
  0 <= tts_volume (volume_up s).2 <= 100 /\
  0 <= tts_volume (volume_down s).2 <= 100.
Proof.
  intros Hrange.
  split; [apply volume_up_run |]. split; [apply volume_down_run |].
  rewrite volume_up_run, volume_down_run. cbn [snd extend with_volume
    tts_volume]. lia.
Qed.

Lemma volume_steps_witness :
  0 <= tts_volume (with_volume running 99) <= 100 /\
  tts_volume (volume_up (with_volume running 99)).2 = 100 /\
  tts_volume (volume_down (with_volume running 1)).2 = 0.
Proof.
  assert (H99 : 0 <= tts_volume (with_volume running 99) <= 100)
    by (cbn; lia).
  assert (H1 : 0 <= tts_volume (with_volume running 1) <= 100)
    by (cbn; lia).
  split; [exact H99 |]. split.
  - destruct (volume_steps_stay_in_range _ H99) as (Hup & _).
    rewrite Hup. reflexivity.
  - destruct (volume_steps_stay_in_range _ H1) as (_ & Hdown & _).
    rewrite Hdown. reflexivity.
Defined.

(** One step up and then one step down give back a volume of the range
    0..100 when there was room for the step up (at most 98), and one step
    down and then one step up give it back when there was room for the
    step down (at least 2).  Where the step is cut short the way back
    overshoots: from above 98, up and then down leaves 98; from below 2,
    down and then up leaves 2. *)
Theorem volume_up_and_down_undo_each_other (s : State) :
  (0 <= tts_volume s <= 98 ->
   tts_volume ((volume_up ;; volume_down) s).2 = tts_volume s) /\
  (2 <= tts_volume s <= 100 ->
   tts_volume ((volume_down ;; volume_up) s).2 = tts_volume s) /\
  (98 < tts_volume s ->
   tts_volume ((volume_up ;; volume_down) s).2 = 98) /\
  (tts_volume s < 2 ->
   tts_volume ((volume_down ;; volume_up) s).2 = 2).
Proof.
  assert (Hud : ((volume_up ;; volume_down) s).2 =
                (volume_down (volume_up s).2).2).
  { unfold mbind, M_bind. rewrite volume_up_run. reflexivity. }
  assert (Hdu : ((volume_down ;; volume_up) s).2 =
                (volume_up (volume_down s).2).2).
  { unfold mbind, M_bind. rewrite volume_down_run. reflexivity. }
  rewrite Hud, Hdu.
  rewrite (volume_down_run (volume_up s).2), (volume_up_run (volume_down s).2).
  rewrite volume_up_run, volume_down_run.
  destruct s as [c a u v b i h t].
  cbn [snd extend with_volume tts_volume].
  repeat split; intros H; lia.
Qed.

Lemma volume_up_and_down_witness :
  0 <= tts_volume running <= 98 /\
  tts_volume ((volume_up ;; volume_down) running).2 = 2 /\
  98 < tts_volume (with_volume running 100) /\
  tts_volume ((volume_up ;; volume_down) (with_volume running 100)).2 = 98.
Proof.
  assert (H1 : 0 <= tts_volume running <= 98) by (cbn; lia).
  assert (H2 : 98 < tts_volume (with_volume running 100)) by (cbn; lia).
  split; [exact H1 |]. split.
  - destruct (volume_up_and_down_undo_each_other running) as (H & _).
    exact (H H1).
  - split; [exact H2 |].
    destruct (volume_up_and_down_undo_each_other (with_volume running 100))
      as (_ & _ & H & _).
    exact (H H2).
Defined.




(** ** The numbers of the set-volume command *)

Lemma digit_value_range (c : ascii) (d : Z) :
  Py.digit_value c = Some d -> 0 <= d <= 9.
Proof.
  unfold Py.digit_value.
  destruct (Z.leb_spec 48 (Py.code c)); [| discriminate].
  destruct (Z.leb_spec (Py.code c) 57); [| discriminate].
  cbn [andb]. intros [= <-]. lia.
Qed.

Lemma int_go_result (s : string) :
  forall (acc : Z),
  0 <= acc ->
  match Py.int_go acc s with
  | Ok v => 0 <= v
  | Raise e => e = ValueError
  end.
Proof.
  induction s as [| c s IH]; intros acc Hacc; cbn [Py.int_go].
  - exact Hacc.
  - destruct (Py.digit_value c) as [d |] eqn:Hd; [| reflexivity].
    apply digit_value_range in Hd. apply IH. lia.
Qed.

Lemma int_result (s : string) :
  match Py.int s with
  | Ok v => 0 <= v
  | Raise e => e = ValueError
  end.
Proof.
  unfold Py.int. destruct s; [reflexivity |]. apply int_go_result. lia.
Qed.

Lemma digit_tokens_result (tokens : list string) :
  match digit_tokens tokens with
  | Ok vs => Forall (fun v => 0 <= v) vs
  | Raise e => e = ValueError
  end.
Proof.
  induction tokens as [| t rest IH]; cbn [digit_tokens].
  - constructor.
  - destruct (Py.isdigit t); [| exact IH].
    pose proof (int_result t) as Ht.
    destruct (Py.int t) as [v | e]; cbn [result_bind]; [| exact Ht].
    destruct (digit_tokens rest) as [vs | e]; cbn [result_bind];
      [| exact IH].
    constructor; assumption.
Qed.

(** The comprehension [[int(s) for s in text.split() if s.isdigit()]]
    yields no negative number, one number per digit token and in their
    order; when it fails, it fails with [ValueError] (a token of digits
    that [int] does not read, such as a superscript two). *)
Theorem digit_tokens_are_not_negative (tokens : list string) :
  (forall vs, digit_tokens tokens = Ok vs ->
     Forall (fun v => 0 <= v) vs /\
     Forall2 (fun t v => Py.int t = Ok v)
       (filter (fun t => Py.isdigit t = true) tokens) vs) /\
  (forall e, digit_tokens tokens = Raise e -> e = ValueError).
Proof.
  split.
  - intros vs Hvs. split.
    + pose proof (digit_tokens_result tokens) as H. rewrite Hvs in H.
      exact H.
    + revert vs Hvs.
      induction tokens as [| t rest IH]; intros vs Hvs;
        cbn [digit_tokens] in Hvs.
      * injection Hvs as <-. constructor.
      * rewrite filter_cons.
        destruct (Py.isdigit t) eqn:Ht.
        -- rewrite decide_True by reflexivity.
           destruct (Py.int t) as [v | e] eqn:Hv; cbn [result_bind] in Hvs;
             [| discriminate].
           destruct (digit_tokens rest) as [vs' | e];
             cbn [result_bind] in Hvs; [| discriminate].
           injection Hvs as <-. constructor; [exact Hv |].
           apply IH. reflexivity.
        -- rewrite decide_False by discriminate. apply IH. exact Hvs.
  - intros e He. pose proof (digit_tokens_result tokens) as H.
    rewrite He in H. exact H.
Qed.

Lemma digit_tokens_witness :
  digit_tokens ["to"; "007"; "-5"; "12"] = Ok [7; 12] /\
  Forall (fun v => 0 <= v) [7; 12] /\
  digit_tokens ["to"; "5"; String (Py.chr 178) EmptyString]
    = Raise ValueError.
Proof.
  assert (H1 : digit_tokens ["to"; "007"; "-5"; "12"] = Ok [7; 12])
    by reflexivity.
  assert (H2 : digit_tokens ["to"; "5"; String (Py.chr 178) EmptyString]
               = Raise ValueError) by reflexivity.
  split; [exact H1 |]. split; [| exact H2].
  destruct (digit_tokens_are_not_negative ["to"; "007"; "-5"; "12"])
    as [Hok _].
  exact (proj1 (Hok _ H1)).
Defined.

Lemma substring_prefix (w b : string) :
  String.substring 0 (String.length w) (w +:+ b) = w.
Proof.
  induction w as [| c w IH]; cbn [String.length].
  - destruct b; reflexivity.
  - rewrite app_String. cbn [String.substring]. f_equal. exact IH.
Qed.

Lemma substring_middle (a w b : string) :
  String.substring (String.length a) (String.length w) (a +:+ w +:+ b) = w.
Proof.
  induction a as [| c a IH]; cbn [String.length].
  - rewrite app_empty. apply substring_prefix.
  - rewrite app_String. cbn [String.substring]. exact IH.
Qed.

Lemma contains_middle (a w b : string) :
  w <> EmptyString -> Py.contains w (a +:+ w +:+ b) = true.
Proof.
  intros Hw. unfold Py.contains, Py.find.
  destruct (String.index 0 w (a +:+ w +:+ b)) as [i |] eqn:Hi;
    [reflexivity |].
  exfalso.
  apply (String.index_correct3 0 (String.length a) _ _ Hi Hw);
    [lia | apply substring_middle].
Qed.

Lemma str_not_empty (v : Z) : Py.str v <> EmptyString.
Proof.
  unfold Py.str.
  destruct (Z.to_int v) as [d | d]; cbn [NilZero.string_of_int].
  - destruct d; discriminate.
  - discriminate.
Qed.

(** The set-volume command in general: when the comprehension over the
    tokens of the text yields [v :: vs], the dispatcher requests
    [stop_conversation], prints the list, speaks a confirmation that holds
    [str v], prints the list again and only then stores [v], which is not
    negative, as the volume.  The confirmation is therefore spoken at the
    previous volume. *)
Theorem set_volume_confirms_then_stores (m : gmap string pyval)
    (raw : string) (a : Assistant) (s : State) (v : Z) (vs : list Z) :
  m !! "text" = Some (VStr raw) ->
  _assistant s = Some a ->
  Py.contains "ip address" (Py.lower raw) = false ->
  Py.contains "repeat" (Py.lower raw) = false ->
  Py.contains "secondary volume to" (Py.lower raw) = true ->
  digit_tokens (volume_tokens (Py.lower raw)) = Ok (v :: vs) ->
  let confirmation :=
    "Ok, I've set the secondary volume to" +:+ Py.str v +:+ "%" in
  _process_event (mkEvent ON_RECOGNIZING_SPEECH_FINISHED (Some m)) s =
  (Ok tt,
   extend (with_volume s v)
     [Print ("You said: " +:+ raw); StopConversation;
      Print (Py.str_list (v :: vs)); Say confirmation;
      Print (Py.str_list (v :: vs)); SetTtsVolume v]) /\
  Py.contains (Py.str v) confirmation = true /\
  0 <= v.
Proof.
  intros Hk Ha Hip Hrep Hto Htok confirmation.
  split; [apply (set_volume_run m raw a s v vs); assumption |].
  split; [apply contains_middle, str_not_empty |].
  pose proof (digit_tokens_result (volume_tokens (Py.lower raw))) as H.
  rewrite Htok in H. apply Forall_cons in H as [H _]. exact H.
Qed.

Lemma set_volume_confirms_witness :
  ({[ "text" := VStr "Set secondary volume to 7 or 30%" ]}
     : gmap string pyval) !! "text"
    = Some (VStr "Set secondary volume to 7 or 30%") /\
  digit_tokens (volume_tokens (Py.lower "Set secondary volume to 7 or 30%"))
    = Ok [7; 30] /\
  _process_event (speech "Set secondary volume to 7 or 30%") running =
  (Ok tt,
   extend (with_volume running 7)
     [Print "You said: Set secondary volume to 7 or 30%"; StopConversation;
      Print "[7, 30]"; Say "Ok, I've set the secondary volume to7%";
      Print "[7, 30]"; SetTtsVolume 7]).
Proof.
  split; [reflexivity |]. split; [reflexivity |].
  destruct (set_volume_confirms_then_stores
              {[ "text" := VStr "Set secondary volume to 7 or 30%" ]}
              "Set secondary volume to 7 or 30%" AssistantHandle running
              7 [30]) as (H & _ & _).
  - reflexivity.
  - reflexivity.
  - vm_compute. reflexivity.
  - vm_compute. reflexivity.
  - vm_compute. reflexivity.
  - vm_compute. reflexivity.
  - exact H.
Defined.

(** ** The exceptions of a handler, and the loop *)

Lemma dispatch_command_raises (text : string) (a : Assistant) (s s' : State)
    (e : exn) :
  _assistant s = Some a ->
  dispatch_command text s = (Raise e, s') ->
  Py.contains "secondary volume to" text = true /\
  (e = ValueError \/ e = IndexError).
Proof.
  intros Ha. destruct s as [c a0 u v b i h t]; cbn in Ha; subst.
  unfold dispatch_command. cbn [Py.truthy andb].
  destruct (String.eqb text "power off"); [run_handlers; discriminate |].
  destruct (String.eqb text "reboot"); [run_handlers; discriminate |].
  destruct (Py.contains "ip address" text); [run_handlers; discriminate |].
  destruct (Py.contains "repeat" text); [run_handlers; discriminate |].
  destruct (Py.contains "secondary volume to" text).
  - intros H. split; [reflexivity |]. revert H.
    cbv [mbind M_bind lift stop_conversation _assistant].
    pose proof (digit_tokens_result
                  (Py.split (Py.replace "%" EmptyString None text))) as Hres.
    destruct (digit_tokens
                (Py.split (Py.replace "%" EmptyString None text)))
      as [[| v0 vs] | e0].
    + run_handlers. intros [= <- _]. right. reflexivity.
    + run_handlers. discriminate.
    + intros [= <- _]. left. exact Hres.
  - assert (Hdown : forall st, (stop_conversation ;; volume_down)
              (mkState c (Some a) u v b i h st) <> (Raise e, s')).
    { intros st. unfold mbind, M_bind, stop_conversation. cbn [_assistant].
      rewrite volume_down_run. discriminate. }
    destruct (Py.contains "secondary volume down" text);
      [intros H; destruct (Hdown _ H) |].
    destruct (Py.contains "secondary volume up" text);
      [intros H; destruct (Hdown _ H) |].
    discriminate.
Qed.

(** With the session open, only two kinds of event can make the handler
    raise.  Recognized speech raises [KeyError] when the arguments have no
    "text", [AttributeError] when the text is not a [str], and
    [ValueError] or [IndexError] in the set-volume command; an assistant
    error raises [KeyError] when the arguments have no "is_fatal" and
    [SystemExit] with code 1 when the flag is true.  The handler's own
    code raises nothing else (the collaborators are taken not to fail). *)
Theorem exceptions_of_a_handler (event : Event) (a : Assistant)
    (s s' : State) (e : exn) :
  _assistant s = Some a ->
  _process_event event s = (Raise e, s') ->
  (type event = ON_RECOGNIZING_SPEECH_FINISHED /\
   (e = KeyError "text" \/ e = AttributeError \/
    e = ValueError \/ e = IndexError)) \/
  (type event = ON_ASSISTANT_ERROR /\
   (e = KeyError "is_fatal" \/ e = SystemExit 1)).
Proof.
  intros Ha. destruct event as [kind args0]. cbn [type].
  destruct kind;
    try (unfold _process_event; cbn [type args];
         cbn [bool_decide decide_rel EventType_eq_dec EventType_rec
              EventType_rect andb];
         destruct s as [c a0 u v b [|] h t]; cbn; discriminate).
  - intros H. left. split; [reflexivity |].
    destruct args0 as [m |];
      [| unfold _process_event in H; cbn in H; discriminate].
    destruct (m !! "text") as [[raw | b] |] eqn:Hk.
    + rewrite (speech_reaches_commands _ _ _ Hk) in H.
      assert (Ha' : _assistant (emit (Print ("You said: " +:+ raw)) s)
                    = Some a) by exact Ha.
      destruct (dispatch_command_raises (Py.lower raw) a _ _ _ Ha' H)
        as [_ [He | He]]; auto.
    + revert H. unfold _process_event. cbn [type args].
      cbn [bool_decide decide_rel EventType_eq_dec EventType_rec
           EventType_rect andb].
      destruct (args_truthy (Some m)); [| discriminate].
      unfold mbind, M_bind, lift, args_getitem. rewrite Hk.
      cbn. intros [= <- _]. auto.
    + revert H. unfold _process_event. cbn [type args].
      cbn [bool_decide decide_rel EventType_eq_dec EventType_rec
           EventType_rect andb].
      destruct (args_truthy (Some m)); [| discriminate].
      unfold mbind, M_bind, lift, args_getitem. rewrite Hk.
      intros [= <- _]. auto.
  - intros H. right. split; [reflexivity |]. revert H.
    unfold _process_event. cbn [type args].
    cbn [bool_decide decide_rel EventType_eq_dec EventType_rec
         EventType_rect andb].
    destruct args0 as [m |]; [| cbn; discriminate].
    destruct (args_truthy (Some m)); [| discriminate].
    unfold mbind, M_bind, lift, args_getitem.
    destruct (m !! "is_fatal") as [v |].
    + destruct (pyval_truthy v); [| discriminate].
      intros [= <- _]. auto.
    + intros [= <- _]. auto.
Qed.

Lemma exceptions_of_a_handler_witness :
  _assistant running = Some AssistantHandle /\
  _process_event (assistant_error true) running
    = (Raise (SystemExit 1), running) /\
  ((type (assistant_error true) = ON_RECOGNIZING_SPEECH_FINISHED /\
    (SystemExit 1 = KeyError "text" \/ SystemExit 1 = AttributeError \/
     SystemExit 1 = ValueError \/ SystemExit 1 = IndexError)) \/
   (type (assistant_error true) = ON_ASSISTANT_ERROR /\
    (SystemExit 1 = KeyError "is_fatal" \/ SystemExit 1 = SystemExit 1))).
Proof.
  assert (H : _process_event (assistant_error true) running
              = (Raise (SystemExit 1), running))
    by (vm_compute; reflexivity).
  split; [reflexivity |]. split; [exact H |].
  apply (exceptions_of_a_handler (assistant_error true) AssistantHandle
           running running (SystemExit 1) eq_refl H).
Defined.

Lemma for_each_event_app (before later : list Event) (s : State) :
  for_each_event (before ++ later) s =
  (for_each_event before ;; for_each_event later) s.
Proof.
  revert s. induction before as [| event rest IH]; intros s;
    cbn [app for_each_event].
  - reflexivity.
  - unfold mbind, M_bind in *.
    destruct (_process_event event s) as [[[] | e] s1]; [| reflexivity].
    apply IH.
Qed.

(** Handling a stream of events in two parts is handling it whole: the
    second part starts in the state the first part leaves, and is not
    started at all when the first part raised. *)
Theorem event_loop_composes (before later : list Event) (s : State) :
  for_each_event (before ++ later) s =
  match for_each_event before s with
  | (Ok _, s1) => for_each_event later s1
  | (Raise e, s1) => (Raise e, s1)
  end.
Proof. rewrite for_each_event_app. reflexivity. Qed.

(** An exception in one handler ends the assistant: when the events
    [before] are handled and the next one raises, [_run_task] stops with
    that exception in the state the failing handler left, whatever events
    would have followed, and the thread of [start] ends there (an
    exception other than [SystemExit] is reported). *)
Theorem first_exception_ends_the_loop (before later : list Event)
    (event : Event) (world s1 s2 : State) (e : exn) :
  for_each_event before (entered world) = (Ok tt, s1) ->
  _process_event event s1 = (Raise e, s2) ->
  _run_task (before ++ event :: later) (__init__ world) = (Raise e, s2) /\
  (start (before ++ event :: later) (__init__ world)).2 = s2 /\
  ((forall code, e <> SystemExit code) ->
   start (before ++ event :: later) (__init__ world) = (Reported e, s2)).
Proof.
  intros Hbefore Hevent.
  assert (Hrun : _run_task (before ++ event :: later) (__init__ world)
                 = (Raise e, s2)).
  { rewrite run_task_enters, for_each_event_app.
    unfold mbind, M_bind at 1. rewrite Hbefore.
    apply for_each_event_raises. exact Hevent. }
  split; [exact Hrun |].
  unfold start, Thread_run. rewrite Hrun.
  split.
  - destruct e; reflexivity.
  - intros Hne. destruct e; try reflexivity.
    destruct (Hne code). reflexivity.
Qed.

Lemma first_exception_witness :
  let world := loaded "power-up" false "192.168.1.20" in
  let before := [mkEvent ON_START_FINISHED None] in
  let later := [speech "reboot"; mkEvent ON_END_OF_UTTERANCE None] in
  start (before ++ speech "set secondary volume to maximum" :: later)
    (__init__ world) =
  (Reported IndexError,
   mkState true (Some AssistantHandle) "ready" 2 true false "192.168.1.20"
     [Status "ready"; OnPress;
      Print "You said: set secondary volume to maximum"; StopConversation;
      Print "[]"]).
Proof.
  cbv zeta.
  assert (Hbefore : for_each_event [mkEvent ON_START_FINISHED None]
                      (entered (loaded "power-up" false "192.168.1.20"))
                    = (Ok tt,
                       mkState true (Some AssistantHandle) "ready" 2 true
                         false "192.168.1.20" [Status "ready"; OnPress]))
    by (vm_compute; reflexivity).
  assert (Hevent : _process_event (speech "set secondary volume to maximum")
                     (mkState true (Some AssistantHandle) "ready" 2 true
                        false "192.168.1.20" [Status "ready"; OnPress])
                   = (Raise IndexError,
                      mkState true (Some AssistantHandle) "ready" 2 true
                        false "192.168.1.20"
                        [Status "ready"; OnPress;
                         Print "You said: set secondary volume to maximum";
                         StopConversation; Print "[]"]))
    by (vm_compute; reflexivity).
  destruct (first_exception_ends_the_loop
              [mkEvent ON_START_FINISHED None]
              [speech "reboot"; mkEvent ON_END_OF_UTTERANCE None]
              _ _ _ _ _ Hbefore Hevent) as (_ & _ & H).
  apply H. intros code. discriminate.
Defined.

(** ** Invariants of a run *)

Lemma system_session (acts : list action) :
  forall (task : result unit) (s : State),
  _assistant (system acts task s).2 = _assistant s.
Proof.
  induction acts as [| [event |] rest IH]; intros task s; cbn [system].
  - reflexivity.
  - destruct task as [u | e]; [| apply IH].
    pose proof (surroundings_process_event event s) as Hs.
    destruct (_process_event event s) as [task' s']. cbn [snd] in Hs.
    rewrite IH. unfold surroundings in Hs. congruence.
  - rewrite IH. unfold button_press.
    destruct (button_callback s); [| reflexivity].
    apply (frame_on_button_pressed _assistant); reflexivity.
Qed.

(** In a run of [_run_task], whatever events were delivered and however
    often the button was pressed, the session handle is in place: a call
    of the button callback does not raise, and it requests exactly one of
    [start_conversation] and [stop_conversation], by the readiness
    flag. *)
Theorem button_never_fails_in_a_run (world : State) (acts : list action) :
  _assistant (after world acts) = Some AssistantHandle /\
  _on_button_pressed (after world acts) =
  (Ok tt,
   extend (after world acts)
     [if _can_start_conversation (after world acts)
      then StartConversation else StopConversation]).
Proof.
  assert (Ha : _assistant (after world acts) = Some AssistantHandle).
  { unfold after. rewrite system_session. reflexivity. }
  split; [exact Ha |]. apply (on_button_pressed_run _ _ Ha).
Qed.




(** ** Nothing done is undone *)

Lemma grows_ret {A : Type} (a : A) : grows (mret a).
Proof. intros s. reflexivity. Qed.

Lemma grows_bind {A B : Type} (m : M A) (k : A -> M B) :
  grows m -> (forall a, grows (k a)) -> grows (m ≫= k).
Proof.
  intros Hm Hk s. unfold mbind, M_bind.
  specialize (Hm s). destruct (m s) as [[a | e] s1]; cbn [snd] in *.
  - etransitivity; [exact Hm | apply Hk].
  - exact Hm.
Qed.

Lemma grows_lift {A : Type} (r : result A) : grows (lift r).
Proof. intros s. reflexivity. Qed.

Lemma grows_raise {A : Type} (e : exn) : grows (@raise A e).
Proof. intros s. reflexivity. Qed.

Lemma grows_read {A : Type} (g : State -> A) :
  grows (fun s => (Ok (g s), s)).
Proof. intros s. reflexivity. Qed.

Lemma grows_do (e : effect) : grows (do e).
Proof. intros s. apply prefix_app_r. reflexivity. Qed.

Lemma grows_stop_conversation : grows stop_conversation.
Proof.
  intros s. unfold stop_conversation.
  destruct (_assistant s); [apply prefix_app_r |]; reflexivity.
Qed.

Lemma grows_start_conversation : grows start_conversation.
Proof.
  intros s. unfold start_conversation.
  destruct (_assistant s); [apply prefix_app_r |]; reflexivity.
Qed.

Lemma grows_set_tts_volume (v : Z) : grows (set_tts_volume v).
Proof. intros s. apply prefix_app_r. reflexivity. Qed.

Lemma grows_status (status : string) : grows (status_ui_status status).
Proof. intros s. apply prefix_app_r. reflexivity. Qed.

Lemma grows_on_press : grows button_on_press.
Proof. intros s. apply prefix_app_r. reflexivity. Qed.

Lemma grows_set_can_start (b : bool) : grows (set_can_start_conversation b).
Proof. intros s. reflexivity. Qed.

Create HintDb grows.
#[local] Hint Resolve grows_ret grows_lift grows_raise grows_read grows_do
  grows_stop_conversation grows_start_conversation grows_set_tts_volume
  grows_status grows_on_press grows_set_can_start : grows.

Ltac grows :=
  repeat first
    [ progress auto with grows
    | apply grows_bind; [| intros ?]
    | match goal with
      | |- grows (if ?b then _ else _) => destruct b
      end ].



